(** * code2pseudocode: the hover cache and the conversion command

    A shallow embedding of the VS Code extension (the variant of
    [extension.ts] that owns [pseudocodeCache], the change listener, the
    hover provider and [convertToPseudocode]) and of [claudeApi.ts].

    Strings are byte sequences holding the UTF-8 encoding of the
    JavaScript string, so the texts of the source can be written as they
    are.  The module-level variables of the extension and the parts of
    the host it reads or writes are gathered in a record [World] that
    every handler threads through.  The one asynchronous operation that
    suspends a handler, [axios.post], is a node [Await] of the
    computation: what runs after it receives the outcome of the request
    and the world as it is at that later time. *)

From Stdlib Require Import Ascii.
From stdpp Require Import base strings gmap list pretty.

Local Open Scope string_scope.

(** ** JavaScript strings *)

Module Js.

Definition code (a : ascii) : N := N_of_ascii a.

(** One-byte members of WhiteSpace and LineTerminator:
    TAB, LF, VT, FF, CR and SP. *)
Definition is_ws1 (a : ascii) : bool :=
  ((9 <=? code a) && (code a <=? 13) || (code a =? 32))%N.

(** U+00A0, encoded on two bytes. *)
Definition is_ws2 (a b : ascii) : bool :=
  ((code a =? 194) && (code b =? 160))%N.

(** U+1680, U+2000..U+200A, U+2028, U+2029, U+202F, U+205F, U+3000 and
    U+FEFF, encoded on three bytes. *)
Definition is_ws3 (a b c : ascii) : bool :=
  ((code a =? 225) && (code b =? 154) && (code c =? 128)
   || (code a =? 226) && (code b =? 128)
      && ((128 <=? code c) && (code c <=? 138)
          || (code c =? 168) || (code c =? 169) || (code c =? 175))
   || (code a =? 226) && (code b =? 129) && (code c =? 159)
   || (code a =? 227) && (code b =? 128) && (code c =? 128)
   || (code a =? 239) && (code b =? 187) && (code c =? 191))%N.

(** [strip false] removes the white space at the head of a string.
    [strip true] does the same on a reversed string, where the bytes
    of each character come last byte first. *)
Fixpoint strip (rev : bool) (s : string) : string :=
  match s with
  | String a s1 =>
      if is_ws1 a then strip rev s1 else
      match s1 with
      | String b s2 =>
          if (if rev then is_ws2 b a else is_ws2 a b) then strip rev s2 else
          match s2 with
          | String c s3 =>
              if (if rev then is_ws3 c b a else is_ws3 a b c)
              then strip rev s3 else s
          | EmptyString => s
          end
      | EmptyString => s
      end
  | EmptyString => s
  end.

Definition trimStart (s : string) : string := strip false s.
Definition trimEnd (s : string) : string :=
  String.rev (strip true (String.rev s)).

(** [String.prototype.trim] *)
Definition trim (s : string) : string := trimEnd (trimStart s).

(** [!s] for a string [s]: only the empty string is falsy. *)
Definition not_ (s : string) : bool :=
  match s with
  | EmptyString => true
  | String _ _ => false
  end.

(** [s.startsWith(c)] for a one-byte [c]. *)
Definition startsWith (c : ascii) (s : string) : bool :=
  match s with
  | String a _ => Ascii.eqb a c
  | EmptyString => false
  end.

(** [s.endsWith(t)] *)
Definition endsWith (t s : string) : bool :=
  String.prefix (String.rev t) (String.rev s).

(** [toLowerCase] on the letters A to Z.  The other bytes are kept. *)
Definition lower (a : ascii) : ascii :=
  if ((65 <=? code a) && (code a <=? 90))%N
  then ascii_of_N (code a + 32) else a.

Fixpoint toLowerCase (s : string) : string :=
  match s with
  | String a s' => String (lower a) (toLowerCase s')
  | EmptyString => EmptyString
  end.

(** [s.replace(/c/g, t)] for a one-byte [c]. *)
Fixpoint replaceAll (c : ascii) (t : string) (s : string) : string :=
  match s with
  | String a s' =>
      (if Ascii.eqb a c then t else String a "") +:+ replaceAll c t s'
  | EmptyString => EmptyString
  end.

Definition nl : string := String (ascii_of_nat 10) "".

End Js.

(** ** The host, the service and the state of the extension *)

(** The body of an error response, [err.response.data].  It may be
    [null] or [undefined].  Of any other value two things are used: the
    text that the console prints for it, and [data.error?.message],
    which is there when it is truthy. *)
Inductive ResponseData :=
| DataNull
| DataUndefined
| DataOf (printed : string) (error_message : option string).

(** What [axios.post] hands back.  A fulfilled request carries
    [response.data.content], here the [text] of each block.  A rejected
    one carries [err.message] and, when the service answered,
    [err.response]: its [status] and its [data]. *)
Record AxiosResponse := {
  status : N;
  data : ResponseData
}.

(** [data.error?.message] of a body that is an object. *)
Definition data_error_message (r : AxiosResponse) : option string :=
  match data r with
  | DataOf _ error_message => error_message
  | DataNull | DataUndefined => None
  end.

Record AxiosError := {
  err_message : string;
  err_response : option AxiosResponse
}.

Inductive AxiosOutcome :=
| Fulfilled (content : list string)
| Rejected (err : AxiosError).

Record AxiosRequest := {
  endpoint : string;
  x_api_key : string;
  model : string;
  max_tokens : N;
  user_content : string
}.

(** A JavaScript [Error]. *)
Record Error := { message : string }.

(** [editor.document.getText(selection)] and [editor.document.getText()]
    of the active editor, as the host returns them. *)
Record TextEditor := {
  selectionText : string;
  documentText : string
}.

(** What the extension shows through [vscode.window]. *)
Inductive UiEvent :=
| ErrorMessage (msg : string)
| ProgressStart (title : string)
| ProgressReport (increment : N) (msg : string).

(** [shown] has the most recent event first.  [pseudocodePanel] holds
    the text that [getWebviewContent] puts in the page when the panel is
    open; the constant markup around it is left out.  [armedTimers] are
    the timers that the save listener has set and that have not fired
    yet, the oldest first, each with the name of the file that was
    saved.  What the extension writes on the console is not part of the
    state. *)
Record World := {
  env_CLAUDE_API_KEY : option string;
  pseudocodeCache : gmap string string;
  pseudocodePanel : option string;
  activeTextEditor : option TextEditor;
  shown : list UiEvent;
  armedTimers : list string
}.

Definition with_cache (c : gmap string string) (w : World) : World :=
  {| env_CLAUDE_API_KEY := env_CLAUDE_API_KEY w;
     pseudocodeCache := c;
     pseudocodePanel := pseudocodePanel w;
     activeTextEditor := activeTextEditor w;
     shown := shown w;
     armedTimers := armedTimers w |}.

Definition with_panel (p : option string) (w : World) : World :=
  {| env_CLAUDE_API_KEY := env_CLAUDE_API_KEY w;
     pseudocodeCache := pseudocodeCache w;
     pseudocodePanel := p;
     activeTextEditor := activeTextEditor w;
     shown := shown w;
     armedTimers := armedTimers w |}.

Definition with_timers (timers : list string) (w : World) : World :=
  {| env_CLAUDE_API_KEY := env_CLAUDE_API_KEY w;
     pseudocodeCache := pseudocodeCache w;
     pseudocodePanel := pseudocodePanel w;
     activeTextEditor := activeTextEditor w;
     shown := shown w;
     armedTimers := timers |}.

Definition show (e : UiEvent) (w : World) : World :=
  {| env_CLAUDE_API_KEY := env_CLAUDE_API_KEY w;
     pseudocodeCache := pseudocodeCache w;
     pseudocodePanel := pseudocodePanel w;
     activeTextEditor := activeTextEditor w;
     shown := e :: shown w;
     armedTimers := armedTimers w |}.

(** [process.env.CLAUDE_API_KEY] when it is truthy: a variable that is
    not set and one set to the empty string are both falsy. *)
Definition apiKey (w : World) : option string :=
  match env_CLAUDE_API_KEY w with
  | Some k => if Js.not_ k then None else Some k
  | None => None
  end.

(** ** Asynchronous computations *)

(** A handler either finishes, with a value or an exception, or is
    suspended on a request.  [Await w req k] has issued [req] in the
    world [w]; [k] runs when the outcome arrives, in the world of that
    moment. *)
Inductive Task (A : Type) : Type :=
| Return (a : A) (w : World)
| Throw (e : Error) (w : World)
| Await (w : World) (req : AxiosRequest) (k : AxiosOutcome → World → Task A).

Arguments Return {A} a w.
Arguments Throw {A} e w.
Arguments Await {A} w req k.

Fixpoint bind {A B} (t : Task A) (f : A → World → Task B) : Task B :=
  match t with
  | Return a w => f a w
  | Throw e w => Throw e w
  | Await w req k => Await w req (λ out w', bind (k out w') f)
  end.

(** [try { t } catch (e) { h e }] *)
Fixpoint try_catch {A} (t : Task A) (h : Error → World → Task A) : Task A :=
  match t with
  | Return a w => Return a w
  | Throw e w => h e w
  | Await w req k => Await w req (λ out w', try_catch (k out w') h)
  end.

Inductive Completion (A : Type) : Type :=
| Returned (a : A)
| Thrown (e : Error).

Arguments Returned {A} a.
Arguments Thrown {A} e.

(** Runs a task to its end with nothing else scheduled in between: each
    request is answered by [serve] and the task goes on in the world it
    was suspended in.  The requests that were sent come out in order. *)
Fixpoint run {A} (serve : AxiosRequest → AxiosOutcome) (t : Task A)
  : Completion A * World * list AxiosRequest :=
  match t with
  | Return a w => (Returned a, w, [])
  | Throw e w => (Thrown e, w, [])
  | Await w req k =>
      let '(c, w', reqs) := run serve (k (serve req) w) in
      (c, w', req :: reqs)
  end.

Definition completion {A} (r : Completion A * World * list AxiosRequest)
  : Completion A := r.1.1.
Definition final {A} (r : Completion A * World * list AxiosRequest)
  : World := r.1.2.
Definition requests {A} (r : Completion A * World * list AxiosRequest)
  : list AxiosRequest := r.2.

(** ** claudeApi.ts *)

(** [a || b] for [a] a string or [undefined]. *)
Definition or_else (a : option string) (b : string) : string :=
  match a with
  | Some s => if Js.not_ s then b else s
  | None => b
  end.

Definition userMessage (code : string) : string :=
  "Please convert the following code into detailed pseudocode. No additional explanations are needed; output only the pseudocode: "
  +:+ Js.nl +:+ Js.nl +:+ code.

Definition messagesRequest (key code : string) : AxiosRequest :=
  {| endpoint := "https://api.anthropic.com/v1/messages";
     x_api_key := key;
     model := "claude-3-7-sonnet-20250219";
     max_tokens := 1024;
     user_content := userMessage code |}.

Definition missingKeyError : Error :=
  {| message := "找不到 CLAUDE_API_KEY，請檢查 .env 檔案。當前環境變數中沒有此 Key。" |}.

Definition apiError (r : AxiosResponse) (err : AxiosError) : Error :=
  {| message := "Claude API 請求失敗 (" +:+ pretty (status r) +:+ "): "
                +:+ or_else (data_error_message r) (err_message err) |}.

Definition networkError (msg : string) : Error :=
  {| message := "Claude API 請求失敗: " +:+ msg |}.

(** The [TypeError] of reading [error] on a body that is [null] or
    [undefined]. *)
Definition noBodyError (d : ResponseData) : Error :=
  match d with
  | DataUndefined =>
      {| message := "Cannot read properties of undefined (reading 'error')" |}
  | _ => {| message := "Cannot read properties of null (reading 'error')" |}
  end.

(** The [catch] clause of [codeToPseudocode].  With a response whose
    body is [null] or [undefined], building the message fails and the
    [TypeError] is what leaves the function. *)
Definition rethrow (err : AxiosError) : Error :=
  match err_response err with
  | Some r =>
      match data r with
      | DataOf _ _ => apiError r err
      | DataNull | DataUndefined => noBodyError (data r)
      end
  | None => networkError (err_message err)
  end.

(** Reading [content[0].text] when [content] is empty throws a
    [TypeError] inside the [try] block; it has no [response]. *)
Definition typeError : AxiosError :=
  {| err_message := "Cannot read properties of undefined (reading 'text')";
     err_response := None |}.

(** What [codeToPseudocode] does once [axios.post] has settled. *)
Definition receive (out : AxiosOutcome) (w : World) : Task string :=
  match out with
  | Fulfilled (text :: _) => Return text w
  | Fulfilled [] => Throw (rethrow typeError) w
  | Rejected err => Throw (rethrow err) w
  end.

Definition codeToPseudocode (code : string) (w : World) : Task string :=
  match apiKey w with
  | None => Throw missingKeyError w
  | Some key => Await w (messagesRequest key code) receive
  end.

(** ** extension.ts *)

Record Hover := { codeblock : string }.

Record ContentChange := {
  text : string;
  rangeLength : N
}.

(** The listener of [onDidChangeTextDocument]. *)
Definition hasRealChanges (contentChanges : list ContentChange) : bool :=
  existsb (λ change,
    negb (Js.not_ (Js.trim (text change))) || (0 <? rangeLength change)%N)
    contentChanges.

Definition onChangeDisposable (contentChanges : list ContentChange)
    (w : World) : World :=
  if (0 <? length contentChanges)%nat then
    if hasRealChanges contentChanges then with_cache ∅ w else w
  else w.

Definition noKeyBlock : string := "❌ 找不到 CLAUDE_API_KEY".

Definition cachedBlock (line : nat) (lineText cachedPseudocode : string)
  : string :=
  "📝 Pseudocode (快取)" +:+ Js.nl
  +:+ "Line " +:+ pretty (line + 1)%nat +:+ ": " +:+ lineText +:+ Js.nl
  +:+ Js.nl +:+ cachedPseudocode.

Definition resultBlock (line : nat) (lineText pseudocode : string) : string :=
  "📝 Pseudocode" +:+ Js.nl
  +:+ "Line " +:+ pretty (line + 1)%nat +:+ ": " +:+ lineText +:+ Js.nl
  +:+ Js.nl +:+ pseudocode.

Definition failureBlock (line : nat) (lineText : string) (error : Error)
  : string :=
  "❌ 轉換失敗" +:+ Js.nl
  +:+ "Line " +:+ pretty (line + 1)%nat +:+ ": " +:+ lineText +:+ Js.nl
  +:+ "錯誤: " +:+ message error.

Definition illegalLine : Error := {| message := "Illegal value for `line`" |}.

(** [provideHover(document, position, token)]: [document] is given by
    its lines and [position] by its line number.  The cache is read with
    [has] then [get], which is one lookup here. *)
Definition provideHover (document : list string) (line : nat) (w : World)
  : Task (option Hover) :=
  match document !! line with
  | None => Throw illegalLine w
  | Some lineOfDocument =>
      let lineText := Js.trim lineOfDocument in
      if Js.not_ lineText || Js.startsWith "#" lineText then Return None w
      else
        match apiKey w with
        | None => Return (Some {| codeblock := noKeyBlock |}) w
        | Some _ =>
            let cacheKey := lineText in
            match pseudocodeCache w !! cacheKey with
            | Some cachedPseudocode =>
                Return
                  (Some {| codeblock :=
                             cachedBlock line lineText cachedPseudocode |}) w
            | None =>
                try_catch
                  (bind (codeToPseudocode lineText w) (λ pseudocode w',
                     Return
                       (Some {| codeblock :=
                                  resultBlock line lineText pseudocode |})
                       (with_cache
                          (<[cacheKey := pseudocode]> (pseudocodeCache w'))
                          w')))
                  (λ error w',
                     Return
                       (Some {| codeblock :=
                                  failureBlock line lineText error |}) w')
            end
        end
  end.

Definition escapeHtml (s : string) : string :=
  Js.replaceAll (ascii_of_nat 39) "&#039;"
    (Js.replaceAll (ascii_of_nat 34) "&quot;"
       (Js.replaceAll ">" "&gt;"
          (Js.replaceAll "<" "&lt;"
             (Js.replaceAll "&" "&amp;" s)))).

Definition getWebviewContent (pseudocode : string) : string :=
  escapeHtml pseudocode.

(** An open panel gets the new content; otherwise a panel is created
    with it. *)
Definition showPseudocodePanel (pseudocode : string) (w : World) : World :=
  with_panel (Some (getWebviewContent pseudocode)) w.

(** [if (!isAutoUpdate) vscode.window.showErrorMessage(msg)] *)
Definition showErrorUnlessAuto (isAutoUpdate : bool) (msg : string)
    (w : World) : World :=
  if isAutoUpdate then w else show (ErrorMessage msg) w.

(** The text that [convertToPseudocode] converts: the selection, or the
    whole document when the selection has nothing but white space;
    nothing when that holds of the document too. *)
Definition textToConvert (editor : TextEditor) : option string :=
  let selectedText := selectionText editor in
  if Js.not_ (Js.trim selectedText) then
    let selectedText := documentText editor in
    if Js.not_ (Js.trim selectedText) then None else Some selectedText
  else Some selectedText.

Definition convertToPseudocode (isAutoUpdate : bool) (w : World) : Task unit :=
  match activeTextEditor w with
  | None =>
      Return () (showErrorUnlessAuto isAutoUpdate "請先打開一個程式碼文件" w)
  | Some editor =>
      match textToConvert editor with
      | None => Return () (showErrorUnlessAuto isAutoUpdate "檔案內容為空" w)
      | Some selectedText =>
          match apiKey w with
          | None =>
              Return ()
                (showErrorUnlessAuto isAutoUpdate
                   "找不到 CLAUDE_API_KEY，請檢查 .env 檔案" w)
          | Some _ =>
              let w :=
                show (ProgressStart
                        (if isAutoUpdate then "更新 pseudocode..."
                         else "正在轉換程式碼為 pseudocode...")) w in
              let w := show (ProgressReport 30 "正在呼叫 Claude API...") w in
              try_catch
                (bind (codeToPseudocode selectedText w) (λ pseudocode w',
                   let w' := show (ProgressReport 70 "正在顯示結果...") w' in
                   Return () (showPseudocodePanel pseudocode w')))
                (λ error w',
                   Return ()
                     (showErrorUnlessAuto isAutoUpdate
                        ("轉換失敗: " +:+ message error) w'))
          end
      end
  end.

(** The listener of [onDidSaveTextDocument].  It converts nothing
    itself: with the panel open and a Python file, it sets a timer of
    100 ms and returns. *)
Definition onSaveDisposable (fileName : string) (w : World) : Task unit :=
  match pseudocodePanel w with
  | None => Return () w
  | Some _ =>
      if Js.endsWith ".py" (Js.toLowerCase fileName)
      then Return () (with_timers (armedTimers w ++ [fileName]) w)
      else Return () w
  end.

(** The callback of that timer, in the state in which it fires. *)
Definition onUpdateTimer (w : World) : Task unit :=
  convertToPseudocode true w.

(** ** The extension in its host *)

Definition with_editor (e : option TextEditor) (w : World) : World :=
  {| env_CLAUDE_API_KEY := env_CLAUDE_API_KEY w;
     pseudocodeCache := pseudocodeCache w;
     pseudocodePanel := pseudocodePanel w;
     activeTextEditor := e;
     shown := shown w;
     armedTimers := armedTimers w |}.

(** What the host can do to the extension: the four registrations of
    [activate], the [onDidDispose] callback of the panel, and a change
    of the active editor or of its selection. *)
Inductive HostEvent :=
| DidChangeTextDocument (contentChanges : list ContentChange)
| DidSaveTextDocument (fileName : string)
| HoverRequested (document : list string) (line : nat)
| CommandInvoked
| PanelDisposed
| EditorChanged (editor : option TextEditor).

Definition dispatch (ev : HostEvent) (w : World) : Task unit :=
  match ev with
  | DidChangeTextDocument contentChanges =>
      Return () (onChangeDisposable contentChanges w)
  | DidSaveTextDocument fileName => onSaveDisposable fileName w
  | HoverRequested document line =>
      bind (provideHover document line w) (λ _ w', Return () w')
  | CommandInvoked => convertToPseudocode false w
  | PanelDisposed => Return () (with_panel None w)
  | EditorChanged editor => Return () (with_editor editor w)
  end.

(** A handler suspended on its request. *)
Record Flight := {
  origin : HostEvent;
  request : AxiosRequest;
  resume : AxiosOutcome → World → Task unit
}.

Record System := {
  world : World;
  inflight : list Flight
}.

(** The state when [activate] returns: an empty cache and no panel. *)
Definition boot (key : option string) (editor : option TextEditor) : System :=
  {| world := {| env_CLAUDE_API_KEY := key;
                 pseudocodeCache := ∅;
                 pseudocodePanel := None;
                 activeTextEditor := editor;
                 shown := [];
                 armedTimers := [] |};
     inflight := [] |}.

(** A handler runs until it finishes or suspends. *)
Definition settle (ev : HostEvent) (t : Task unit) (others : list Flight)
  : System :=
  match t with
  | Return _ w => {| world := w; inflight := others |}
  | Throw _ w => {| world := w; inflight := others |}
  | Await w req k =>
      {| world := w;
         inflight := others ++ [{| origin := ev; request := req; resume := k |}] |}
  end.

(** One turn of the event loop: the host calls a handler, the
    response to the [i]-th request in flight arrives, or the oldest
    timer of the save listener fires. *)
Inductive Turn :=
| Host (ev : HostEvent)
| Response (i : nat) (out : AxiosOutcome)
| Timer.

Definition step (s : System) (t : Turn) : System :=
  match t with
  | Host ev => settle ev (dispatch ev (world s)) (inflight s)
  | Response i out =>
      match inflight s !! i with
      | Some f =>
          settle (origin f) (resume f out (world s)) (delete i (inflight s))
      | None => s
      end
  | Timer =>
      match armedTimers (world s) with
      | fileName :: timers =>
          settle (DidSaveTextDocument fileName)
            (onUpdateTimer (with_timers timers (world s))) (inflight s)
      | [] => s
      end
  end.

Definition exec (ts : list Turn) (s : System) : System := foldl step s ts.

(** ** Vocabulary of the statements *)

(** A line that the hover provider goes on with: its trimmed text is not
    empty and is not a Python comment. *)
Definition hasContent (lineText : string) : bool :=
  negb (Js.not_ lineText || Js.startsWith "#" lineText).

(** [provideHover] after its [await], for the line [line] whose trimmed
    text is [lineText]. *)
Definition hoverResume (line : nat) (lineText : string)
    (out : AxiosOutcome) (w : World) : Task (option Hover) :=
  try_catch
    (bind (receive out w) (λ pseudocode w',
       Return (Some {| codeblock := resultBlock line lineText pseudocode |})
         (with_cache (<[lineText := pseudocode]> (pseudocodeCache w')) w')))
    (λ error w',
       Return (Some {| codeblock := failureBlock line lineText error |}) w').

(** [convertToPseudocode] after its [await]. *)
Definition convertResume (isAutoUpdate : bool)
    (out : AxiosOutcome) (w : World) : Task unit :=
  try_catch
    (bind (receive out w) (λ pseudocode w',
       let w' := show (ProgressReport 70 "正在顯示結果...") w' in
       Return () (showPseudocodePanel pseudocode w')))
    (λ error w',
       Return ()
         (showErrorUnlessAuto isAutoUpdate ("轉換失敗: " +:+ message error) w')).

(** What [convertToPseudocode] has shown when it sends its request. *)
Definition inProgress (isAutoUpdate : bool) (w : World) : World :=
  show (ProgressReport 30 "正在呼叫 Claude API...")
    (show (ProgressStart
             (if isAutoUpdate then "更新 pseudocode..."
              else "正在轉換程式碼為 pseudocode...")) w).

(** A content change that counts: it brings text that is not white
    space only, or it replaces or deletes a range that is not empty. *)
Definition realChange (change : ContentChange) : Prop :=
  Js.trim (text change) ≠ "" ∨ (0 < rangeLength change)%N.

(** Reading the status back from the message of an error: the decimal
    number between the opening text of an API error and the closing
    parenthesis. *)
Fixpoint dropPrefix (p s : string) : option string :=
  match p with
  | EmptyString => Some s
  | String a p' =>
      match s with
      | String b s' => if Ascii.eqb a b then dropPrefix p' s' else None
      | EmptyString => None
      end
  end.

Definition digitOf (a : ascii) : option N :=
  if ((48 <=? Js.code a) && (Js.code a <=? 57))%N
  then Some (Js.code a - 48)%N else None.

Fixpoint readNumber (acc : N) (s : string) : N * string :=
  match s with
  | String a s' =>
      match digitOf a with
      | Some d => readNumber (acc * 10 + d) s'
      | None => (acc, s)
      end
  | EmptyString => (acc, s)
  end.

Definition statusOf (e : Error) : option N :=
  match dropPrefix "Claude API 請求失敗 (" (message e) with
  | Some rest =>
      match readNumber 0 rest with
      | (n, String ")" _) => Some n
      | _ => None
      end
  | None => None
  end.

(** The state after the hover provider has received the outcome of its
    request: the first block of a fulfilled request is stored under the
    key; any other outcome stores nothing. *)
Definition stored (lineText : string) (out : AxiosOutcome) (w : World) : World :=
  match out with
  | Fulfilled (pseudocode :: _) =>
      with_cache (<[lineText := pseudocode]> (pseudocodeCache w)) w
  | _ => w
  end.

(** A hover that goes to the service: a line with content, a
    credential, and no entry for the key. *)
Definition misses (document : list string) (line : nat) (w : World)
    (key lineText : string) : Prop :=
  Js.trim <$> document !! line = Some lineText
  ∧ hasContent lineText = true
  ∧ apiKey w = Some key
  ∧ pseudocodeCache w !! lineText = None.

(** The lookup of the specification, on the running extension. *)
Definition cached (F : string) (s : System) : option string :=
  pseudocodeCache (world s) !! F.

(** The cache key of a hover request: the trimmed text of its line. *)
Definition hoverKey (ev : HostEvent) : option string :=
  match ev with
  | HoverRequested document line => Js.trim <$> document !! line
  | _ => None
  end.

(** A turn that empties the cache. *)
Definition invalidates (t : Turn) : bool :=
  match t with
  | Host (DidChangeTextDocument contentChanges) => hasRealChanges contentChanges
  | _ => false
  end.

(** A turn that stores under [F]: a fulfilled response with a first
    block, arriving for a hover on a line whose key is [F]. *)
Definition storesUnder (F : string) (s : System) (t : Turn) : bool :=
  match t with
  | Response i (Fulfilled (_ :: _)) =>
      match inflight s !! i with
      | Some f => bool_decide (hoverKey (origin f) = Some F)
      | None => false
      end
  | _ => false
  end.

(** A sequence of turns, none of which empties the cache or stores
    under [F]. *)
Fixpoint undisturbed (F : string) (s : System) (ts : list Turn) : bool :=
  match ts with
  | [] => true
  | t :: ts' =>
      negb (invalidates t) && negb (storesUnder F s t)
      && undisturbed F (step s t) ts'
  end.

(** The requests in flight are those of the two handlers that await. *)
Inductive FlightOf : Flight → Prop :=
| flight_hover document line lineOfDocument req :
    document !! line = Some lineOfDocument →
    hasContent (Js.trim lineOfDocument) = true →
    FlightOf {| origin := HoverRequested document line;
                request := req;
                resume := λ out w,
                  bind (hoverResume line (Js.trim lineOfDocument) out w)
                       (λ _ w', Return () w') |}
| flight_convert ev isAutoUpdate req :
    hoverKey ev = None →
    FlightOf {| origin := ev; request := req;
                resume := convertResume isAutoUpdate |}.

Definition reachable (s : System) : Prop :=
  ∃ key editor ts, s = exec ts (boot key editor).


(** ** Sample states *)

Definition sampleKey : string := "sk-ant-test".

(** A cache that holds one line. *)
Definition sampleCache : gmap string string := {[ "x = 1" := "SET x TO 1" ]}.

Definition sampleWorld (key : option string) (c : gmap string string)
    (editor : option TextEditor) : World :=
  {| env_CLAUDE_API_KEY := key;
     pseudocodeCache := c;
     pseudocodePanel := None;
     activeTextEditor := editor;
     shown := [];
     armedTimers := [] |}.

(** A service that answers every request with one block. *)
Definition echoService (answer : string) : AxiosRequest → AxiosOutcome :=
  λ _, Fulfilled [answer].

(** A body with [error.message], or an empty one, as the console
    prints it. *)
Definition bodyOf (msg : option string) : ResponseData :=
  match msg with
  | Some m => DataOf ("{ error: { message: '" +:+ m +:+ "' } }") (Some m)
  | None => DataOf "" None
  end.

(** A service that rejects every request with the given status. *)
Definition failingService (st : N) (msg : option string)
  : AxiosRequest → AxiosOutcome :=
  λ _, Rejected {| err_message := "Request failed with status code " +:+ pretty st;
                   err_response := Some {| status := st;
                                           data := bodyOf msg |} |}.

(** A service that answers 502 with the body [null]. *)
Definition nullBodyService : AxiosRequest → AxiosOutcome :=
  λ _, Rejected {| err_message := "Request failed with status code 502";
                   err_response := Some {| status := 502; data := DataNull |} |}.

(** A service that cannot be reached. *)
Definition unreachableService : AxiosRequest → AxiosOutcome :=
  λ _, Rejected {| err_message := "getaddrinfo ENOTFOUND api.anthropic.com";
                   err_response := None |}.

(** The extension after a hover on the line [x = 1], with its request
    in flight. *)
Definition hovering : System :=
  exec [Host (HoverRequested ["x = 1"] 0)] (boot (Some sampleKey) None).

Definition hoverFlight : Flight :=
  {| origin := HoverRequested ["x = 1"] 0;
     request := messagesRequest sampleKey "x = 1";
     resume := λ out w,
       bind (hoverResume 0 "x = 1" out w) (λ _ w', Return () w') |}.

(** The extension with the line [x = 1] in its cache and the same text
    selected in the active editor. *)
Definition cachedAndSelected : System :=
  exec [ Host (HoverRequested ["x = 1"] 0);
         Response 0 (Fulfilled ["SET x TO 1"]);
         Host (EditorChanged
                 (Some {| selectionText := "x = 1"; documentText := "x = 1" |})) ]
    (boot (Some sampleKey) None).

(** Turns that leave the entry of [x = 1] alone: white space typed in
    the document, hovers on the same line and on another one, the answer
    for that other line, the command. *)
Definition quietTurns : list Turn :=
  [ Host (DidChangeTextDocument [{| text := "  "; rangeLength := 0 |}]);
    Host (HoverRequested ["    x = 1"] 0);
    Host (HoverRequested ["y = 2"] 0);
    Response 0 (Fulfilled ["SET y TO 2"]);
    Host (EditorChanged (Some {| selectionText := ""; documentText := "x = 1" |}));
    Host CommandInvoked;
    Response 0 (Rejected {| err_message := "timeout"; err_response := None |}) ].

(** ** claudeApi.js and the command-line script *)

(** The JavaScript version of [codeToPseudocode]: another instruction
    and another text for the missing key, the same request and the same
    [catch] clause otherwise.  It is the one that the command-line script
    calls, and the console is what that script is about: the task gives
    back what the function printed together with how the call ended. *)
Module ClaudeApiJs.

Record Settled := {
  printed : list string;
  outcome : Completion string
}.

(** An argument of [console.error] that is the body of a response. *)
Definition shownBody (d : ResponseData) : string :=
  match d with
  | DataNull => "null"
  | DataUndefined => "undefined"
  | DataOf printed _ => printed
  end.

Definition userMessage (code : string) : string :=
  "請將下列程式碼轉換成詳細的 pseudocode，不需要額外解釋，只需要輸出 pseudocode 即可："
  +:+ Js.nl +:+ Js.nl +:+ code.

Definition messagesRequest (key code : string) : AxiosRequest :=
  {| endpoint := "https://api.anthropic.com/v1/messages";
     x_api_key := key;
     model := "claude-3-7-sonnet-20250219";
     max_tokens := 1024;
     user_content := userMessage code |}.

Definition missingKeyError : Error :=
  {| message := "找不到 CLAUDE_API_KEY，請檢查 .env 檔案" |}.

(** What the function does once [axios.post] has settled.  The [catch]
    clause prints the body of an error response before it builds the
    message of the error that it throws. *)
Definition receive (out : AxiosOutcome) : Settled :=
  match out with
  | Fulfilled (text :: _) => {| printed := []; outcome := Returned text |}
  | Fulfilled [] => {| printed := []; outcome := Thrown (rethrow typeError) |}
  | Rejected err =>
      {| printed :=
           match err_response err with
           | Some r => ["API 錯誤詳情: " +:+ shownBody (data r)]
           | None => []
           end;
         outcome := Thrown (rethrow err) |}
  end.

Definition codeToPseudocode (code : string) (w : World) : Task Settled :=
  match apiKey w with
  | None => Return {| printed := []; outcome := Thrown missingKeyError |} w
  | Some key =>
      Await w (messagesRequest key code) (λ out w', Return (receive out) w')
  end.

End ClaudeApiJs.

(** The script that reads code on the standard input.  [codeLines] are
    the lines pushed so far and [closed] tells that [rl.close()] was
    called. *)
Module Cli.

Record Readline := {
  closed : bool;
  codeLines : list string
}.

(** The listener of ['line']: nothing comes in once the interface is
    closed. *)
Definition onLine (rl : Readline) (line : string) : Readline :=
  if closed rl then rl
  else if Js.not_ (Js.trim line)
       then {| closed := true; codeLines := codeLines rl |}
       else {| closed := false; codeLines := (codeLines rl ++ [line])%list |}.

(** [codeLines.join('\n')] *)
Definition join (codeLines : list string) : string :=
  String.concat Js.nl codeLines.

Section Script.

(** The [codeToPseudocode] that [require('./claudeApi')] brings. *)
Variable convert : string → World → Task ClaudeApiJs.Settled.

(** The listener of ['close'], with what the console got before it.
    The value of the task is the console, line by line; after
    [process.exit(0)] nothing else is printed.  [console.error] puts a
    space between its two arguments. *)
Definition onClose (console : list string) (codeLines : list string)
    (w : World) : Task (list string) :=
  let code := join codeLines in
  if Js.not_ code then
    Return (console ++ ["未輸入任何程式碼，程式結束。"])%list w
  else
    let console :=
      (console ++ [Js.nl +:+ "正在呼叫 Claude API，請稍候..."])%list in
    try_catch
      (bind (convert code w) (λ settled w',
         let console := (console ++ ClaudeApiJs.printed settled)%list in
         match ClaudeApiJs.outcome settled with
         | Returned pseudocode =>
             Return
               (console
                ++ [Js.nl +:+ "--- Claude 產生的 pseudocode ---" +:+ Js.nl;
                    pseudocode])%list w'
         | Thrown err =>
             Return (console ++ ["發生錯誤： " +:+ message err])%list w'
         end))
      (λ err w',
         Return (console ++ ["發生錯誤： " +:+ message err])%list w').

(** The whole script on the lines [input] of the standard input, which
    then ends. *)
Definition main (input : list string) (w : World) : Task (list string) :=
  let rl := foldl onLine {| closed := false; codeLines := [] |} input in
  onClose ["請輸入你要轉換的程式碼（結束請輸入空行）："] (codeLines rl) w.

End Script.

End Cli.

(** ** The earlier command *)

(** The command of the version of [extension.ts] that has no cache and
    no module-level panel: it converts the selection only, and each
    conversion opens a panel of its own.  The value of the task is the
    content of the panel that was created, if any. *)
Module Earlier.


End Earlier.

(** The lines of the input that come before the first blank one. *)
Fixpoint beforeBlank (input : list string) : list string :=
  match input with
  | [] => []
  | line :: input' =>
      if Js.not_ (Js.trim line) then [] else line :: beforeBlank input'
  end.

(** ** Vocabulary of the further properties *)

(** [s.includes(c)] for a one-byte [c]. *)
Fixpoint occurs (c : ascii) (s : string) : bool :=
  match s with
  | String a s' => Ascii.eqb a c || occurs c s'
  | EmptyString => false
  end.

(** What [escapeHtml] puts in the place of one character. *)
Definition entity (a : ascii) : string :=
  if Ascii.eqb a "&" then "&amp;"
  else if Ascii.eqb a "<" then "&lt;"
  else if Ascii.eqb a ">" then "&gt;"
  else if Ascii.eqb a (ascii_of_nat 34) then "&quot;"
  else if Ascii.eqb a (ascii_of_nat 39) then "&#039;"
  else String a "".

(** One pass over the text, an entity for each character. *)
Fixpoint entities (s : string) : string :=
  match s with
  | String a s' => entity a +:+ entities s'
  | EmptyString => EmptyString
  end.

(** The characters that open or close a tag or an attribute value. *)
Definition markup (c : ascii) : bool :=
  Ascii.eqb c "<" || Ascii.eqb c ">"
  || Ascii.eqb c (ascii_of_nat 34) || Ascii.eqb c (ascii_of_nat 39).

(** The error messages that were shown, the most recent first. *)
Definition errorMessages (w : World) : list string :=
  omap (λ e, match e with ErrorMessage msg => Some msg | _ => None end)
       (shown w).

(** [isPythonFile] of the save listener. *)
Definition isPythonFile (fileName : string) : bool :=
  Js.endsWith ".py" (Js.toLowerCase fileName).

(** When the save listener sets its timer: the panel is open and the
    file is a Python file. *)
Definition armsTimer (fileName : string) (w : World) : bool :=
  match pseudocodePanel w with
  | Some _ => isPythonFile fileName
  | None => false
  end.

(** When the timer converts, in the state in which it fires: the active
    editor has the text [selectedText] to convert and the credential is
    [key]. *)
Definition timerConverts (w : World) (key selectedText : string) : Prop :=
  textToConvert <$> activeTextEditor w = Some (Some selectedText)
  ∧ apiKey w = Some key.

(** The turns in which the host calls a handler. *)
Fixpoint hostTurns (ts : list Turn) : nat :=
  match ts with
  | [] => 0
  | Host _ :: ts' => S (hostTurns ts')
  | Response _ _ :: ts' => hostTurns ts'
  | Timer :: ts' => hostTurns ts'
  end.

(** A white-space character at the head of a string ([rev] as in
    [Js.strip]). *)
Definition headWs (rev : bool) (s : string) : bool :=
  match s with
  | String a s1 =>
      Js.is_ws1 a
      || match s1 with
         | String b s2 =>
             (if rev then Js.is_ws2 b a else Js.is_ws2 a b)
             || match s2 with
                | String c _ => if rev then Js.is_ws3 c b a else Js.is_ws3 a b c
                | EmptyString => false
                end
         | EmptyString => false
         end
  | EmptyString => false
  end.

(** A text with no white space at either end. *)
Definition trimmed (s : string) : Prop :=
  headWs false s = false ∧ headWs true (String.rev s) = false.

(** * Properties *)

(** ** Strings *)

Lemma string_app_assoc (s1 s2 s3 : string) :
  (s1 +:+ s2) +:+ s3 = s1 +:+ (s2 +:+ s3).
Proof.
  induction s1 as [|a s1 IH]; [done|].
  change (String a ((s1 +:+ s2) +:+ s3) = String a (s1 +:+ (s2 +:+ s3))).
  by rewrite IH.
Qed.

Lemma trim_examples :
  Js.trim "  x = 1  " = "x = 1"
  ∧ Js.trim "x  =  1" = "x  =  1"
  ∧ Js.trim ("  " +:+ Js.nl) = ""
  ∧ Js.trim "　" = ""
  ∧ Js.trim "" = "".
Proof. by repeat split. Qed.

(** White space in front of a line does not reach the trimmed text. *)
Lemma trim_indented (indent : ascii) (s : string) :
  Js.is_ws1 indent = true → Js.trim (String indent s) = Js.trim s.
Proof. unfold Js.trim, Js.trimStart. simpl. by intros ->. Qed.

(** ** The hover provider, case by case *)

Section ProvideHover.

Variables (document : list string) (line : nat) (lineOfDocument : string).
Variable w : World.
Hypothesis at_line : document !! line = Some lineOfDocument.

Local Abbreviation lineText := (Js.trim lineOfDocument).

Lemma provideHover_skips :
  hasContent lineText = false →
  provideHover document line w = Return None w.
Proof.
  unfold hasContent, provideHover. rewrite at_line.
  intros H. apply negb_false_iff in H. by rewrite H.
Qed.

Lemma provideHover_without_key :
  hasContent lineText = true → apiKey w = None →
  provideHover document line w = Return (Some {| codeblock := noKeyBlock |}) w.
Proof.
  unfold hasContent, provideHover. rewrite at_line.
  intros H Hk. apply negb_true_iff in H. by rewrite H, Hk.
Qed.

Lemma provideHover_hit key cachedPseudocode :
  hasContent lineText = true → apiKey w = Some key →
  pseudocodeCache w !! lineText = Some cachedPseudocode →
  provideHover document line w
  = Return (Some {| codeblock := cachedBlock line lineText cachedPseudocode |}) w.
Proof.
  unfold hasContent, provideHover. rewrite at_line.
  intros H Hk Hc. apply negb_true_iff in H. by rewrite H, Hk, Hc.
Qed.

Lemma provideHover_miss key :
  hasContent lineText = true → apiKey w = Some key →
  pseudocodeCache w !! lineText = None →
  provideHover document line w
  = Await w (messagesRequest key lineText) (hoverResume line lineText).
Proof.
  unfold hasContent, provideHover. rewrite at_line.
  intros H Hk Hc. apply negb_true_iff in H. rewrite H, Hk, Hc.
  unfold codeToPseudocode. by rewrite Hk.
Qed.

End ProvideHover.

Lemma provideHover_out_of_range document line w :
  document !! line = None →
  provideHover document line w = Throw illegalLine w.
Proof. unfold provideHover. by intros ->. Qed.

Lemma hoverResume_fulfilled line lineText pseudocode rest w :
  hoverResume line lineText (Fulfilled (pseudocode :: rest)) w
  = Return (Some {| codeblock := resultBlock line lineText pseudocode |})
      (with_cache (<[lineText := pseudocode]> (pseudocodeCache w)) w).
Proof. reflexivity. Qed.

Lemma hoverResume_no_block line lineText w :
  hoverResume line lineText (Fulfilled []) w
  = Return (Some {| codeblock := failureBlock line lineText (rethrow typeError) |}) w.
Proof. reflexivity. Qed.

Lemma hoverResume_rejected line lineText err w :
  hoverResume line lineText (Rejected err) w
  = Return (Some {| codeblock := failureBlock line lineText (rethrow err) |}) w.
Proof. reflexivity. Qed.

(** ** The command, case by case *)

Lemma not_true (s : string) : Js.not_ s = true ↔ s = "".
Proof. by destruct s. Qed.

Lemma not_false (s : string) : Js.not_ s = false ↔ s ≠ "".
Proof. by destruct s. Qed.

Lemma textToConvert_blank editor :
  textToConvert editor = None
  ↔ Js.trim (selectionText editor) = "" ∧ Js.trim (documentText editor) = "".
Proof.
  unfold textToConvert. rewrite <- !not_true.
  destruct (Js.not_ (Js.trim (selectionText editor)));
    destruct (Js.not_ (Js.trim (documentText editor)));
    split; (done || by intros []).
Qed.


Lemma textToConvert_document editor :
  Js.trim (selectionText editor) = "" →
  Js.trim (documentText editor) ≠ "" →
  textToConvert editor = Some (documentText editor).
Proof. unfold textToConvert. by intros ->%not_true ->%not_false. Qed.

Section ConvertToPseudocode.

Variables (isAutoUpdate : bool) (w : World) (editor : TextEditor).
Hypothesis active : activeTextEditor w = Some editor.

Lemma convert_nothing_to_convert :
  textToConvert editor = None →
  convertToPseudocode isAutoUpdate w
  = Return () (showErrorUnlessAuto isAutoUpdate "檔案內容為空" w).
Proof. unfold convertToPseudocode. rewrite active. by intros ->. Qed.

Lemma convert_without_key selectedText :
  textToConvert editor = Some selectedText → apiKey w = None →
  convertToPseudocode isAutoUpdate w
  = Return ()
      (showErrorUnlessAuto isAutoUpdate
         "找不到 CLAUDE_API_KEY，請檢查 .env 檔案" w).
Proof. unfold convertToPseudocode. rewrite active. by intros -> ->. Qed.

Lemma convert_sends selectedText key :
  textToConvert editor = Some selectedText → apiKey w = Some key →
  convertToPseudocode isAutoUpdate w
  = Await (inProgress isAutoUpdate w) (messagesRequest key selectedText)
      (convertResume isAutoUpdate).
Proof.
  unfold convertToPseudocode. rewrite active. intros -> Hk. rewrite Hk.
  unfold codeToPseudocode.
  change (apiKey (show _ (show _ w))) with (apiKey w). by rewrite Hk.
Qed.

End ConvertToPseudocode.

Lemma convert_without_editor isAutoUpdate w :
  activeTextEditor w = None →
  convertToPseudocode isAutoUpdate w
  = Return () (showErrorUnlessAuto isAutoUpdate "請先打開一個程式碼文件" w).
Proof. unfold convertToPseudocode. by intros ->. Qed.

Lemma convertResume_fulfilled isAutoUpdate pseudocode rest w :
  convertResume isAutoUpdate (Fulfilled (pseudocode :: rest)) w
  = Return ()
      (showPseudocodePanel pseudocode
         (show (ProgressReport 70 "正在顯示結果...") w)).
Proof. reflexivity. Qed.

Lemma convertResume_no_block isAutoUpdate w :
  convertResume isAutoUpdate (Fulfilled []) w
  = Return ()
      (showErrorUnlessAuto isAutoUpdate
         ("轉換失敗: " +:+ message (rethrow typeError)) w).
Proof. reflexivity. Qed.

Lemma convertResume_rejected isAutoUpdate err w :
  convertResume isAutoUpdate (Rejected err) w
  = Return ()
      (showErrorUnlessAuto isAutoUpdate
         ("轉換失敗: " +:+ message (rethrow err)) w).
Proof. reflexivity. Qed.

Lemma showErrorUnlessAuto_cache isAutoUpdate msg w :
  pseudocodeCache (showErrorUnlessAuto isAutoUpdate msg w) = pseudocodeCache w.
Proof. by destruct isAutoUpdate. Qed.

Lemma showErrorUnlessAuto_apiKey isAutoUpdate msg w :
  apiKey (showErrorUnlessAuto isAutoUpdate msg w) = apiKey w.
Proof. by destruct isAutoUpdate. Qed.

(** ** C3 and C9: the change listener *)

Lemma hasRealChanges_Exists contentChanges :
  hasRealChanges contentChanges = true ↔ Exists realChange contentChanges.
Proof.
  unfold hasRealChanges. rewrite existsb_exists, Exists_exists.
  split; intros (change & Hin & H); exists change;
    (split; [by apply list_elem_of_In|]).
  - apply orb_true_iff in H as [H|H]; [left|right].
    + by apply negb_true_iff, not_false in H.
    + by apply N.ltb_lt.
  - apply orb_true_iff. destruct H as [H|H]; [left|right].
    + by apply negb_true_iff, not_false.
    + by apply N.ltb_lt.
Qed.

(** C3, as amended.  The change listener empties the cache if and only
    if one of the content changes of the event brings text that is not
    white space only, or has a range length above zero; otherwise it
    leaves the state as it was.  In particular an event that inserts two
    spaces (range length zero) keeps every entry, and an event that
    brings the text [y = 2] empties the cache. *)
Theorem change_listener_clears_on_real_change contentChanges w :
  ((Exists realChange contentChanges
    ∧ onChangeDisposable contentChanges w = with_cache ∅ w)
   ∨ (¬ Exists realChange contentChanges
      ∧ onChangeDisposable contentChanges w = w))
  ∧ onChangeDisposable [{| text := "  "; rangeLength := 0 |}] w = w
  ∧ ∀ n, onChangeDisposable [{| text := "y = 2"; rangeLength := n |}] w
         = with_cache ∅ w.
Proof.
  split; [|by split].
  unfold onChangeDisposable.
  destruct (hasRealChanges contentChanges) eqn:Hreal.
  - left. apply hasRealChanges_Exists in Hreal. split; [done|].
    by destruct Hreal.
  - right. split; [|by destruct contentChanges].
    intros H%hasRealChanges_Exists. congruence.
Qed.

(** C3 fails as it is stated.  An event that deletes three characters
    brings an empty text, and the cache is emptied all the same. *)
Lemma deletion_empties_cache :
  text {| text := ""; rangeLength := 3 |} = ""
  ∧ pseudocodeCache (sampleWorld (Some sampleKey) sampleCache None) !! "x = 1"
    = Some "SET x TO 1"
  ∧ pseudocodeCache
      (onChangeDisposable [{| text := ""; rangeLength := 3 |}]
         (sampleWorld (Some sampleKey) sampleCache None)) !! "x = 1" = None.
Proof. by repeat split. Qed.

(** The same holds of a change that replaces one character by a space. *)
Lemma whitespace_replacement_empties_cache :
  Js.trim " " = ""
  ∧ pseudocodeCache
      (onChangeDisposable [{| text := " "; rangeLength := 1 |}]
         (sampleWorld (Some sampleKey) sampleCache None)) = ∅.
Proof. by split. Qed.

(** C9.  Once a change event has emptied the cache, the lookup of every
    fragment finds nothing, whatever was stored before. *)
Theorem invalidation_forgets_every_fragment s contentChanges F :
  invalidates (Host (DidChangeTextDocument contentChanges)) = true →
  cached F (step s (Host (DidChangeTextDocument contentChanges))) = None.
Proof.
  simpl. intros Hreal. unfold cached, onChangeDisposable. rewrite Hreal.
  by destruct contentChanges.
Qed.

Lemma invalidation_forgets_every_fragment_witness :
  cached "x = 1"
    {| world := sampleWorld (Some sampleKey) sampleCache None; inflight := [] |}
  = Some "SET x TO 1"
  ∧ cached "x = 1"
      (step {| world := sampleWorld (Some sampleKey) sampleCache None;
               inflight := [] |}
         (Host (DidChangeTextDocument [{| text := "y = 2"; rangeLength := 0 |}])))
    = None.
Proof.
  split; [reflexivity|].
  apply (invalidation_forgets_every_fragment
           {| world := sampleWorld (Some sampleKey) sampleCache None;
              inflight := [] |}
           [{| text := "y = 2"; rangeLength := 0 |}] "x = 1").
  reflexivity.
Defined.

(** After the invalidation, a hover on a line that was cached goes to
    the service again. *)
Lemma hover_after_invalidation document line lineOfDocument w key contentChanges :
  document !! line = Some lineOfDocument →
  hasContent (Js.trim lineOfDocument) = true →
  apiKey w = Some key →
  hasRealChanges contentChanges = true →
  provideHover document line (onChangeDisposable contentChanges w)
  = Await (with_cache ∅ w) (messagesRequest key (Js.trim lineOfDocument))
      (hoverResume line (Js.trim lineOfDocument)).
Proof.
  intros Hl Hc Hk Hreal.
  assert (onChangeDisposable contentChanges w = with_cache ∅ w) as ->.
  { unfold onChangeDisposable. rewrite Hreal. by destruct contentChanges. }
  by apply provideHover_miss.
Qed.

(** ** C5 and C10: nothing to convert *)

Lemma blank_has_no_content lineText : lineText = "" → hasContent lineText = false.
Proof. by intros ->. Qed.

(** C5, as amended.  A hover on a line that is empty or has white space
    only returns no hover at all, and no error.  The command, when the
    selection and the document are both empty or white space only, ends
    on the empty-file message, which an automatic update does not show.
    In both cases no request is sent and the cache is not changed. *)
Theorem blank_input_is_not_converted document line lineOfDocument
    isAutoUpdate w editor serve :
  (document !! line = Some lineOfDocument →
   Js.trim lineOfDocument = "" →
   run serve (provideHover document line w) = (Returned None, w, []))
  ∧ (activeTextEditor w = Some editor →
     Js.trim (selectionText editor) = "" →
     Js.trim (documentText editor) = "" →
     run serve (convertToPseudocode isAutoUpdate w)
     = (Returned (), showErrorUnlessAuto isAutoUpdate "檔案內容為空" w, [])
     ∧ pseudocodeCache (showErrorUnlessAuto isAutoUpdate "檔案內容為空" w)
       = pseudocodeCache w).
Proof.
  split.
  - intros Hl Hblank.
    by rewrite (provideHover_skips _ _ _ _ Hl (blank_has_no_content _ Hblank)).
  - intros Ha Hs Hd.
    rewrite (convert_nothing_to_convert _ _ _ Ha); [|by apply textToConvert_blank].
    split; [done|]. apply showErrorUnlessAuto_cache.
Qed.

Lemma blank_input_is_not_converted_witness :
  run (echoService "SET x TO 1")
    (provideHover ["x = 1"; "   "] 1 (sampleWorld (Some sampleKey) sampleCache None))
  = (Returned None, sampleWorld (Some sampleKey) sampleCache None, [])
  ∧ run (echoService "SET x TO 1")
      (convertToPseudocode false
         (sampleWorld (Some sampleKey) sampleCache
            (Some {| selectionText := ""; documentText := "   " |})))
    = (Returned (),
       show (ErrorMessage "檔案內容為空")
         (sampleWorld (Some sampleKey) sampleCache
            (Some {| selectionText := ""; documentText := "   " |})),
       []).
Proof.
  split.
  - apply (blank_input_is_not_converted ["x = 1"; "   "] 1 "   " false
             (sampleWorld (Some sampleKey) sampleCache None)
             {| selectionText := ""; documentText := "   " |}
             (echoService "SET x TO 1")); reflexivity.
  - apply (blank_input_is_not_converted [] 0 "" false
             (sampleWorld (Some sampleKey) sampleCache
                (Some {| selectionText := ""; documentText := "   " |}))
             {| selectionText := ""; documentText := "   " |}
             (echoService "SET x TO 1")); reflexivity.
Defined.

(** C5 fails as it is stated.  When the selection has white space only
    and the document has code, the command does not fail: it sends the
    document to the service. *)
Lemma blank_selection_reaches_service :
  Js.trim "   " = ""
  ∧ run (echoService "SET x TO 1")
      (convertToPseudocode false
         (sampleWorld (Some sampleKey) ∅
            (Some {| selectionText := "   "; documentText := "x = 1" |})))
    = (Returned (),
       showPseudocodePanel "SET x TO 1"
         (show (ProgressReport 70 "正在顯示結果...")
            (inProgress false
               (sampleWorld (Some sampleKey) ∅
                  (Some {| selectionText := "   ";
                           documentText := "x = 1" |})))),
       [messagesRequest sampleKey "x = 1"]).
Proof. by split. Qed.

(** C10.  In the command, a selection that is empty or has white space
    only makes the whole document the text to convert: with a document
    that has other characters and a credential, the request carries the
    document.  A manual invocation ends on the empty-file message if and
    only if the selection and the document are both empty or white space
    only; an automatic one then ends without a message. *)
Theorem command_falls_back_to_document isAutoUpdate w editor :
  activeTextEditor w = Some editor →
  (Js.trim (selectionText editor) = "" →
   Js.trim (documentText editor) ≠ "" →
   textToConvert editor = Some (documentText editor)
   ∧ ∀ key, apiKey w = Some key →
       convertToPseudocode isAutoUpdate w
       = Await (inProgress isAutoUpdate w)
           (messagesRequest key (documentText editor))
           (convertResume isAutoUpdate))
  ∧ (convertToPseudocode false w
     = Return () (show (ErrorMessage "檔案內容為空") w)
     ↔ Js.trim (selectionText editor) = ""
       ∧ Js.trim (documentText editor) = "")
  ∧ (Js.trim (selectionText editor) = "" →
     Js.trim (documentText editor) = "" →
     convertToPseudocode true w = Return () w).
Proof.
  intros Ha. split; [|split].
  - intros Hs Hd. pose proof (textToConvert_document _ Hs Hd) as Ht.
    split; [done|]. intros key Hk. by apply (convert_sends _ _ _ Ha).
  - rewrite <- textToConvert_blank. split.
    + destruct (textToConvert editor) as [selectedText|] eqn:Ht; [|done].
      destruct (apiKey w) as [key|] eqn:Hk.
      * by rewrite (convert_sends _ _ _ Ha _ _ Ht Hk).
      * rewrite (convert_without_key _ _ _ Ha _ Ht Hk). simpl.
        by intros [=].
    + intros Ht. by rewrite (convert_nothing_to_convert _ _ _ Ha Ht).
  - intros Hs Hd.
    rewrite (convert_nothing_to_convert _ _ _ Ha); [done|].
    by apply textToConvert_blank.
Qed.

Lemma command_falls_back_to_document_witness :
  textToConvert {| selectionText := "  "; documentText := "x = 1" |}
  = Some "x = 1"
  ∧ convertToPseudocode false
      (sampleWorld (Some sampleKey) ∅
         (Some {| selectionText := "  "; documentText := "x = 1" |}))
    = Await
        (inProgress false
           (sampleWorld (Some sampleKey) ∅
              (Some {| selectionText := "  "; documentText := "x = 1" |})))
        (messagesRequest sampleKey "x = 1") (convertResume false).
Proof.
  destruct (command_falls_back_to_document false
              (sampleWorld (Some sampleKey) ∅
                 (Some {| selectionText := "  "; documentText := "x = 1" |}))
              {| selectionText := "  "; documentText := "x = 1" |}
              eq_refl) as [H _].
  destruct H as [Ht Hsend]; [reflexivity | by vm_compute |].
  split; [exact Ht | apply Hsend; reflexivity].
Defined.

(** ** C6: no credential, no request *)

Lemma provideHover_without_key_settles document line w :
  apiKey w = None →
  ∃ c, ∀ serve, run serve (provideHover document line w) = (c, w, []).
Proof.
  intros Hk. destruct (document !! line) as [lineOfDocument|] eqn:Hl.
  - destruct (hasContent (Js.trim lineOfDocument)) eqn:Hc.
    + rewrite (provideHover_without_key _ _ _ _ Hl Hc Hk). by eexists.
    + rewrite (provideHover_skips _ _ _ _ Hl Hc). by eexists.
  - rewrite (provideHover_out_of_range _ _ _ Hl). by eexists.
Qed.

Lemma convert_without_key_settles isAutoUpdate w :
  apiKey w = None →
  ∃ w', ∀ serve,
    run serve (convertToPseudocode isAutoUpdate w) = (Returned (), w', []).
Proof.
  intros Hk. destruct (activeTextEditor w) as [editor|] eqn:Ha.
  - destruct (textToConvert editor) as [selectedText|] eqn:Ht.
    + rewrite (convert_without_key _ _ _ Ha _ Ht Hk). by eexists.
    + rewrite (convert_nothing_to_convert _ _ _ Ha Ht). by eexists.
  - rewrite (convert_without_editor _ _ Ha). by eexists.
Qed.

Lemma dispatch_without_key ev w serve :
  apiKey w = None → requests (run serve (dispatch ev w)) = [].
Proof.
  intros Hk. destruct ev as [cs|fileName|document line| | |editor]; simpl;
    try done.
  - unfold onSaveDisposable. destruct (pseudocodePanel w); [|done].
    by destruct (Js.endsWith _ _).
  - destruct (document !! line) as [lineOfDocument|] eqn:Hl.
    + destruct (hasContent (Js.trim lineOfDocument)) eqn:Hc.
      * by rewrite (provideHover_without_key _ _ _ _ Hl Hc Hk).
      * by rewrite (provideHover_skips _ _ _ _ Hl Hc).
    + by rewrite (provideHover_out_of_range _ _ _ Hl).
  - destruct (convert_without_key_settles false w Hk) as [w' ->]. done.
Qed.

(** C6.  When no credential is available, [codeToPseudocode] throws the
    missing-key error for every fragment before it sends anything; the
    hover on a line with content shows the missing-key text; the command
    with a text to convert ends on the missing-key message; and no
    handler sends a request to the service, whatever the event, nor
    does a conversion started by the command or by the timer of the
    save listener. *)
Theorem missing_key_stops_before_request w :
  apiKey w = None →
  (∀ code, codeToPseudocode code w = Throw missingKeyError w)
  ∧ (∀ document line lineOfDocument,
       document !! line = Some lineOfDocument →
       hasContent (Js.trim lineOfDocument) = true →
       provideHover document line w
       = Return (Some {| codeblock := noKeyBlock |}) w)
  ∧ (∀ isAutoUpdate editor selectedText,
       activeTextEditor w = Some editor →
       textToConvert editor = Some selectedText →
       convertToPseudocode isAutoUpdate w
       = Return ()
           (showErrorUnlessAuto isAutoUpdate
              "找不到 CLAUDE_API_KEY，請檢查 .env 檔案" w))
  ∧ (∀ ev serve, requests (run serve (dispatch ev w)) = [])
  ∧ (∀ document line serve,
       requests (run serve (provideHover document line w)) = []
       ∧ final (run serve (provideHover document line w)) = w)
  ∧ (∀ isAutoUpdate serve,
       requests (run serve (convertToPseudocode isAutoUpdate w)) = []
       ∧ requests (run serve (onUpdateTimer w)) = []).
Proof.
  intros Hk. repeat split.
  - intros code. unfold codeToPseudocode. by rewrite Hk.
  - intros document line lineOfDocument Hl Hc.
    apply (provideHover_without_key _ _ _ _ Hl Hc Hk).
  - intros isAutoUpdate editor selectedText Ha Ht.
    by apply (convert_without_key _ _ _ Ha _ Ht).
  - intros ev serve. by apply dispatch_without_key.
  - by destruct (provideHover_without_key_settles document line w Hk) as [c ->].
  - by destruct (provideHover_without_key_settles document line w Hk) as [c ->].
  - by destruct (convert_without_key_settles isAutoUpdate w Hk) as [w' ->].
  - unfold onUpdateTimer.
    by destruct (convert_without_key_settles true w Hk) as [w' ->].
Qed.

Lemma missing_key_stops_before_request_witness :
  codeToPseudocode "x = 1"
    (sampleWorld None ∅
       (Some {| selectionText := "x = 1"; documentText := "x = 1" |}))
  = Throw missingKeyError
      (sampleWorld None ∅
         (Some {| selectionText := "x = 1"; documentText := "x = 1" |}))
  ∧ requests
      (run (echoService "SET x TO 1")
         (dispatch CommandInvoked
            (sampleWorld None ∅
               (Some {| selectionText := "x = 1"; documentText := "x = 1" |}))))
    = [].
Proof.
  destruct (missing_key_stops_before_request
              (sampleWorld None ∅
                 (Some {| selectionText := "x = 1"; documentText := "x = 1" |}))
              eq_refl) as (Hcode & _ & _ & Hev & _).
  split; [apply Hcode | apply Hev].
Defined.

(** An empty variable counts as no credential. *)
Lemma empty_key_is_no_key cache editor :
  apiKey (sampleWorld (Some "") cache editor) = None.
Proof. reflexivity. Qed.

(** ** C7: what a failed request turns into *)

Lemma dropPrefix_app p s : dropPrefix p (p +:+ s) = Some s.
Proof.
  induction p as [|a p IH]; [done|].
  change (String a p +:+ s) with (String a (p +:+ s)). simpl.
  by rewrite Ascii.eqb_refl.
Qed.

Lemma digitOf_pretty_N_char d :
  (d < 10)%N → digitOf (pretty_N_char d) = Some d.
Proof.
  intros Hd. unfold pretty_N_char.
  repeat (destruct d as [|d _] using N.peano_ind; [done|]; try lia).
Qed.

Lemma pretty_N_go_app x s t : pretty_N_go x s +:+ t = pretty_N_go x (s +:+ t).
Proof.
  revert s. induction (N.lt_wf_0 x) as [x _ IH]; intros s.
  destruct (decide (0 < x)%N) as [Hx|Hx].
  - rewrite (pretty_N_go_step x s), (pretty_N_go_step x (s +:+ t)) by done.
    rewrite IH by (apply N.div_lt; lia). done.
  - assert (x = 0%N) as -> by lia. by rewrite !pretty_N_go_0.
Qed.

Lemma readNumber_pretty_N_go x :
  ∃ p, ∀ acc s,
    readNumber acc (pretty_N_go x s) = readNumber (acc * p + x) s.
Proof.
  induction (N.lt_wf_0 x) as [x _ IH].
  destruct (decide (0 < x)%N) as [Hx|Hx].
  - destruct (IH (x `div` 10)%N) as [p Hp]; [apply N.div_lt; lia|].
    exists (p * 10)%N. intros acc s.
    rewrite pretty_N_go_step, Hp by done. simpl.
    rewrite digitOf_pretty_N_char by (apply N.mod_lt; lia).
    f_equal. pose proof (N.div_mod x 10). lia.
  - assert (x = 0%N) as -> by lia. exists 1%N. intros acc s.
    rewrite pretty_N_go_0. f_equal. lia.
Qed.

Lemma readNumber_pretty (n : N) (s : string) :
  readNumber 0 (pretty n +:+ String ")" s) = (n, String ")" s).
Proof.
  unfold pretty, pretty_N. case_decide as Hn.
  - by subst.
  - rewrite pretty_N_go_app.
    destruct (readNumber_pretty_N_go n) as [p ->]. done.
Qed.

Lemma statusOf_apiError r err : statusOf (apiError r err) = Some (status r).
Proof.
  unfold statusOf, apiError. cbn [message]. rewrite dropPrefix_app.
  change ("): " +:+ ?s) with (String ")" (": " +:+ s)).
  by rewrite readNumber_pretty.
Qed.

Lemma statusOf_networkError msg : statusOf (networkError msg) = None.
Proof. reflexivity. Qed.

Lemma statusOf_missingKeyError : statusOf missingKeyError = None.
Proof. reflexivity. Qed.

Lemma or_else_available m fallback :
  m ≠ "" → or_else (Some m) fallback = m.
Proof. unfold or_else. by intros ->%not_false. Qed.

(** With a credential, [codeToPseudocode] sends one request.  When the
    service answers it with an error status and a body that is not
    [null] or [undefined], the error that is thrown has the text of an
    API error with the status in decimal and the message of the service
    (that of the transport when the service gave none), and the status
    can be read back from it.  When no response was received, the error
    has the text of a network error with the message of the transport,
    and no status. *)
Lemma error_with_body_carries_status code w key :
  apiKey w = Some key →
  codeToPseudocode code w = Await w (messagesRequest key code) receive
  ∧ (∀ err r printed error_message w',
       err_response err = Some r →
       data r = DataOf printed error_message →
       receive (Rejected err) w' = Throw (apiError r err) w'
       ∧ message (apiError r err)
         = "Claude API 請求失敗 (" +:+ pretty (status r) +:+ "): "
           +:+ or_else error_message (err_message err)
       ∧ statusOf (apiError r err) = Some (status r)
       ∧ ∀ m, error_message = Some m → m ≠ "" →
           message (apiError r err)
           = "Claude API 請求失敗 (" +:+ pretty (status r) +:+ "): " +:+ m)
  ∧ (∀ err w',
       err_response err = None →
       receive (Rejected err) w' = Throw (networkError (err_message err)) w'
       ∧ message (networkError (err_message err))
         = "Claude API 請求失敗: " +:+ err_message err
       ∧ statusOf (networkError (err_message err)) = None).
Proof.
  intros Hk. split; [|split].
  - unfold codeToPseudocode. by rewrite Hk.
  - intros err r printed error_message w' Hr Hd.
    assert (data_error_message r = error_message) as Hm
      by (unfold data_error_message; by rewrite Hd).
    repeat split.
    + simpl. unfold rethrow. by rewrite Hr, Hd.
    + unfold apiError. simpl. by rewrite Hm.
    + apply statusOf_apiError.
    + intros m -> Hne. unfold apiError. simpl.
      by rewrite Hm, (or_else_available _ _ Hne).
  - intros err w' Hr. repeat split.
    simpl. unfold rethrow. by rewrite Hr.
Qed.

Lemma error_with_body_carries_status_witness :
  receive (failingService 401 (Some "invalid x-api-key") (messagesRequest sampleKey "x = 1"))
    (sampleWorld (Some sampleKey) ∅ None)
  = Throw {| message := "Claude API 請求失敗 (401): invalid x-api-key" |}
      (sampleWorld (Some sampleKey) ∅ None)
  ∧ statusOf {| message := "Claude API 請求失敗 (401): invalid x-api-key" |}
    = Some 401%N.
Proof.
  destruct (error_with_body_carries_status "x = 1"
              (sampleWorld (Some sampleKey) ∅ None) sampleKey eq_refl)
    as (_ & Hapi & _).
  destruct (Hapi {| err_message := "Request failed with status code 401";
                    err_response := Some {| status := 401;
                                            data := bodyOf (Some "invalid x-api-key") |} |}
              {| status := 401; data := bodyOf (Some "invalid x-api-key") |}
              "{ error: { message: 'invalid x-api-key' } }"
              (Some "invalid x-api-key")
              (sampleWorld (Some sampleKey) ∅ None) eq_refl eq_refl)
    as (Hthrow & _ & Hstatus & _).
  split; [exact Hthrow | exact Hstatus].
Defined.

(** A response whose body is [null] or [undefined] makes the [catch]
    clause fail while it builds the message: what leaves
    [codeToPseudocode] is a [TypeError], whatever the status. *)
Lemma error_without_body_is_a_type_error err r w :
  err_response err = Some r →
  data r = DataNull ∨ data r = DataUndefined →
  receive (Rejected err) w = Throw (noBodyError (data r)) w
  ∧ statusOf (noBodyError (data r)) = None.
Proof.
  intros Hr Hd. simpl. unfold rethrow. rewrite Hr.
  by destruct Hd as [-> | ->].
Qed.

(** C7, where the code departs from it.  The service answers 502 with
    the body [null].  The claim asks for an error that carries the
    status 502.  [codeToPseudocode] throws a [TypeError] about the body
    instead, from which no status can be read, and this is what the
    hover and the command show. *)
Theorem null_body_loses_the_status :
  receive (nullBodyService (messagesRequest sampleKey "x = 1"))
    (sampleWorld (Some sampleKey) ∅ None)
  = Throw {| message := "Cannot read properties of null (reading 'error')" |}
      (sampleWorld (Some sampleKey) ∅ None)
  ∧ statusOf {| message := "Cannot read properties of null (reading 'error')" |}
    = None
  ∧ run nullBodyService
      (provideHover ["x = 1"] 0 (sampleWorld (Some sampleKey) ∅ None))
    = (Returned
         (Some {| codeblock :=
                    failureBlock 0 "x = 1"
                      {| message :=
                           "Cannot read properties of null (reading 'error')" |} |}),
       sampleWorld (Some sampleKey) ∅ None,
       [messagesRequest sampleKey "x = 1"])
  ∧ shown
      (final
         (run nullBodyService
            (convertToPseudocode false
               (sampleWorld (Some sampleKey) ∅
                  (Some {| selectionText := "x = 1"; documentText := "" |})))))
    !! 0%nat
    = Some (ErrorMessage
              "轉換失敗: Cannot read properties of null (reading 'error')").
Proof. by repeat split. Qed.

(** The hover and the command show the error of a failed request. *)
Lemma hover_shows_status_401 :
  run (failingService 401 (Some "invalid x-api-key"))
    (provideHover ["x = 1"] 0 (sampleWorld (Some sampleKey) ∅ None))
  = (Returned
       (Some {| codeblock :=
                  failureBlock 0 "x = 1"
                    {| message := "Claude API 請求失敗 (401): invalid x-api-key" |} |}),
     sampleWorld (Some sampleKey) ∅ None,
     [messagesRequest sampleKey "x = 1"]).
Proof. reflexivity. Qed.

Lemma command_shows_status_401 :
  shown
    (final
       (run (failingService 401 None)
          (convertToPseudocode false
             (sampleWorld (Some sampleKey) ∅
                (Some {| selectionText := "x = 1"; documentText := "" |})))))
  !! 0%nat
  = Some (ErrorMessage
            "轉換失敗: Claude API 請求失敗 (401): Request failed with status code 401").
Proof. reflexivity. Qed.

Lemma hover_shows_network_failure :
  completion
    (run unreachableService
       (provideHover ["x = 1"] 0 (sampleWorld (Some sampleKey) ∅ None)))
  = Returned
      (Some {| codeblock :=
                 failureBlock 0 "x = 1"
                   {| message :=
                        "Claude API 請求失敗: getaddrinfo ENOTFOUND api.anthropic.com" |} |}).
Proof. reflexivity. Qed.

(** ** C8: one request and one store at most *)

Lemma hoverResume_settles line lineText out w :
  ∃ h, hoverResume line lineText out w = Return (Some h) (stored lineText out w).
Proof. destruct out as [[|pseudocode rest]|err]; by eexists. Qed.

Lemma convertResume_settles isAutoUpdate out w :
  ∃ w', convertResume isAutoUpdate out w = Return () w'
        ∧ pseudocodeCache w' = pseudocodeCache w
        ∧ apiKey w' = apiKey w.
Proof.
  destruct out as [[|pseudocode rest]|err]; eexists; (split; [reflexivity|]);
    by rewrite ?showErrorUnlessAuto_cache, ?showErrorUnlessAuto_apiKey.
Qed.

Lemma provideHover_on_miss document line w key lineText serve :
  misses document line w key lineText →
  requests (run serve (provideHover document line w))
  = [messagesRequest key lineText]
  ∧ final (run serve (provideHover document line w))
    = stored lineText (serve (messagesRequest key lineText)) w.
Proof.
  intros (Hl & Hc & Hk & Hm).
  destruct (document !! line) as [lineOfDocument|] eqn:Hd; [|done].
  injection Hl as <-.
  rewrite (provideHover_miss _ _ _ _ Hd _ Hc Hk Hm). simpl.
  destruct (hoverResume_settles line (Js.trim lineOfDocument)
              (serve (messagesRequest key (Js.trim lineOfDocument))) w)
    as [h ->]. done.
Qed.

Lemma provideHover_miss_or_not document line w serve :
  (requests (run serve (provideHover document line w)) = []
   ∧ final (run serve (provideHover document line w)) = w)
  ∨ ∃ key lineText, misses document line w key lineText.
Proof.
  destruct (document !! line) as [lineOfDocument|] eqn:Hl.
  - destruct (hasContent (Js.trim lineOfDocument)) eqn:Hc.
    + destruct (apiKey w) as [key|] eqn:Hk.
      * destruct (pseudocodeCache w !! Js.trim lineOfDocument)
          as [cachedPseudocode|] eqn:Hm.
        -- left. by rewrite (provideHover_hit _ _ _ _ Hl _ _ Hc Hk Hm).
        -- right. exists key, (Js.trim lineOfDocument).
           unfold misses. by rewrite Hl.
      * left. by rewrite (provideHover_without_key _ _ _ _ Hl Hc Hk).
    + left. by rewrite (provideHover_skips _ _ _ _ Hl Hc).
  - left. by rewrite (provideHover_out_of_range _ _ _ Hl).
Qed.

Lemma convertToPseudocode_bounds isAutoUpdate w serve :
  (length (requests (run serve (convertToPseudocode isAutoUpdate w))) ≤ 1)%nat
  ∧ pseudocodeCache (final (run serve (convertToPseudocode isAutoUpdate w)))
    = pseudocodeCache w.
Proof.
  destruct (activeTextEditor w) as [editor|] eqn:Ha.
  - destruct (textToConvert editor) as [selectedText|] eqn:Ht.
    + destruct (apiKey w) as [key|] eqn:Hk.
      * rewrite (convert_sends _ _ _ Ha _ _ Ht Hk). simpl.
        destruct (convertResume_settles isAutoUpdate
                    (serve (messagesRequest key selectedText))
                    (inProgress isAutoUpdate w)) as (w' & -> & Hw' & _).
        unfold final, requests. simpl. split; [lia|]. by rewrite Hw'.
      * rewrite (convert_without_key _ _ _ Ha _ Ht Hk). simpl.
        split; [lia|]. apply showErrorUnlessAuto_cache.
    + rewrite (convert_nothing_to_convert _ _ _ Ha Ht). simpl.
      split; [lia|]. apply showErrorUnlessAuto_cache.
  - rewrite (convert_without_editor _ _ Ha). simpl.
    split; [lia|]. apply showErrorUnlessAuto_cache.
Qed.

(** C8.  A hover that misses the cache sends exactly one request, and
    any other hover sends none and changes nothing.  After a miss the
    state is the one before, with the first block of the answer stored
    under the key when the request is fulfilled, and with nothing stored
    when it is not: there is no second request and no entry for a failed
    one.  What runs after the response never sends a request again,
    whatever happened to the state meanwhile.  The command sends at most
    one request and never writes to the cache. *)
Theorem one_request_and_one_store_at_most document line w serve :
  ((requests (run serve (provideHover document line w)) = []
    ∧ final (run serve (provideHover document line w)) = w)
   ∨ ∃ key lineText, misses document line w key lineText)
  ∧ (∀ key lineText,
       misses document line w key lineText →
       requests (run serve (provideHover document line w))
       = [messagesRequest key lineText]
       ∧ final (run serve (provideHover document line w))
         = stored lineText (serve (messagesRequest key lineText)) w
       ∧ ((∀ pseudocode rest,
             serve (messagesRequest key lineText)
             ≠ Fulfilled (pseudocode :: rest)) →
          final (run serve (provideHover document line w)) = w))
  ∧ (∀ lineText out w',
       ∃ h, hoverResume line lineText out w'
            = Return (Some h) (stored lineText out w'))
  ∧ (∀ isAutoUpdate,
       (length (requests (run serve (convertToPseudocode isAutoUpdate w)))
        ≤ 1)%nat
       ∧ pseudocodeCache
           (final (run serve (convertToPseudocode isAutoUpdate w)))
         = pseudocodeCache w).
Proof.
  split; [apply provideHover_miss_or_not|]. split; [|split].
  - intros key lineText Hmiss.
    destruct (provideHover_on_miss _ _ _ _ _ serve Hmiss) as [Hreq Hfin].
    split; [done|]. split; [done|]. intros Hfail. rewrite Hfin.
    destruct (serve (messagesRequest key lineText)) as [[|pseudocode rest]|err];
      [done| |done].
    by destruct (Hfail pseudocode rest).
  - intros lineText out w'. apply hoverResume_settles.
  - intros isAutoUpdate. apply convertToPseudocode_bounds.
Qed.

Lemma one_request_and_one_store_at_most_witness :
  requests
    (run (failingService 500 None)
       (provideHover ["y = 2"] 0 (sampleWorld (Some sampleKey) sampleCache None)))
  = [messagesRequest sampleKey "y = 2"]
  ∧ final
      (run (failingService 500 None)
         (provideHover ["y = 2"] 0 (sampleWorld (Some sampleKey) sampleCache None)))
    = sampleWorld (Some sampleKey) sampleCache None.
Proof.
  destruct (one_request_and_one_store_at_most ["y = 2"] 0
              (sampleWorld (Some sampleKey) sampleCache None)
              (failingService 500 None)) as (_ & Hmiss & _).
  destruct (Hmiss sampleKey "y = 2") as (Hreq & _ & Hfail).
  { by repeat split. }
  split; [exact Hreq | apply Hfail; intros pseudocode rest; discriminate].
Defined.

(** A fulfilled request stores its first block. *)
Lemma hover_stores_the_answer :
  run (echoService "SET y TO 2")
    (provideHover ["y = 2"] 0 (sampleWorld (Some sampleKey) sampleCache None))
  = (Returned (Some {| codeblock := resultBlock 0 "y = 2" "SET y TO 2" |}),
     sampleWorld (Some sampleKey) (<["y = 2" := "SET y TO 2"]> sampleCache) None,
     [messagesRequest sampleKey "y = 2"]).
Proof. reflexivity. Qed.

(** ** C4: the key of the cache *)

Lemma stored_other lineText out w other :
  other ≠ lineText →
  pseudocodeCache (stored lineText out w) !! other = pseudocodeCache w !! other.
Proof.
  intros Hne. destruct out as [[|pseudocode rest]|err]; try done.
  simpl. by rewrite lookup_insert_ne.
Qed.

Lemma stored_same lineText pseudocode rest w :
  pseudocodeCache (stored lineText (Fulfilled (pseudocode :: rest)) w) !! lineText
  = Some pseudocode.
Proof. simpl. apply lookup_insert_eq. Qed.

(** C4, as amended.  The key under which the hover provider stores and
    looks up is the text of the line with the white space at both ends
    removed.  A store under the key of one line leaves the lookup under
    every other key as it was, and two lines share an entry exactly when
    their trimmed texts are the same: after a store for one line, a
    hover on any line with the same trimmed text is served from the
    cache. *)
Theorem key_is_trimmed_line document line w key lineText serve :
  misses document line w key lineText →
  (∀ other, other ≠ lineText →
     pseudocodeCache (final (run serve (provideHover document line w))) !! other
     = pseudocodeCache w !! other)
  ∧ (∀ pseudocode rest document' line' lineOfDocument',
       serve (messagesRequest key lineText) = Fulfilled (pseudocode :: rest) →
       document' !! line' = Some lineOfDocument' →
       Js.trim lineOfDocument' = lineText →
       provideHover document' line'
         (final (run serve (provideHover document line w)))
       = Return
           (Some {| codeblock := cachedBlock line' lineText pseudocode |})
           (final (run serve (provideHover document line w)))).
Proof.
  intros Hmiss.
  destruct (provideHover_on_miss _ _ _ _ _ serve Hmiss) as [_ ->].
  split.
  - intros other Hne. by apply stored_other.
  - intros pseudocode rest document' line' lineOfDocument' Hserve Hl' <-.
    destruct Hmiss as (_ & Hc & Hk & _). rewrite Hserve.
    apply (provideHover_hit _ _ _ _ Hl' key); [done|done|].
    apply stored_same.
Qed.

Lemma key_is_trimmed_line_witness :
  pseudocodeCache
    (final (run (echoService "SET x TO 1")
              (provideHover ["x = 1"] 0 (sampleWorld (Some sampleKey) ∅ None))))
  !! "x  =  1" = None
  ∧ provideHover ["if x:"; "    x = 1"] 1
      (final (run (echoService "SET x TO 1")
                (provideHover ["x = 1"] 0 (sampleWorld (Some sampleKey) ∅ None))))
    = Return (Some {| codeblock := cachedBlock 1 "x = 1" "SET x TO 1" |})
        (final (run (echoService "SET x TO 1")
                  (provideHover ["x = 1"] 0 (sampleWorld (Some sampleKey) ∅ None)))).
Proof.
  destruct (key_is_trimmed_line ["x = 1"] 0 (sampleWorld (Some sampleKey) ∅ None)
              sampleKey "x = 1" (echoService "SET x TO 1"))
    as [Hother Hsame].
  { by repeat split. }
  split.
  - rewrite (Hother "x  =  1"); [reflexivity | discriminate].
  - apply (Hsame "SET x TO 1" [] ["if x:"; "    x = 1"] 1 "    x = 1");
      reflexivity.
Defined.

(** C4 fails as it is stated.  The lines [x = 1] and [    x = 1] differ
    in white space only; once the first is stored, the hover on the
    second gets the stored explanation and no request is sent. *)
Lemma indented_line_shares_the_entry :
  "x = 1" ≠ "    x = 1"
  ∧ run (echoService "SET x TO 1")
      (provideHover ["x = 1"] 0 (sampleWorld (Some sampleKey) ∅ None))
    = (Returned (Some {| codeblock := resultBlock 0 "x = 1" "SET x TO 1" |}),
       sampleWorld (Some sampleKey) sampleCache None,
       [messagesRequest sampleKey "x = 1"])
  ∧ run unreachableService
      (provideHover ["    x = 1"] 0 (sampleWorld (Some sampleKey) sampleCache None))
    = (Returned (Some {| codeblock := cachedBlock 0 "x = 1" "SET x TO 1" |}),
       sampleWorld (Some sampleKey) sampleCache None,
       []).
Proof. by repeat split. Qed.

(** Inner white space is kept: such lines have different keys. *)
Lemma inner_white_space_is_kept :
  Js.trim "x  =  1" = "x  =  1"
  ∧ run (echoService "SET x TO 1")
      (provideHover ["x  =  1"] 0 (sampleWorld (Some sampleKey) sampleCache None))
    = (Returned (Some {| codeblock := resultBlock 0 "x  =  1" "SET x TO 1" |}),
       sampleWorld (Some sampleKey)
         (<["x  =  1" := "SET x TO 1"]> sampleCache) None,
       [messagesRequest sampleKey "x  =  1"]).
Proof. by repeat split. Qed.

(** ** The event loop: what a turn does to the cache and to the requests in flight *)

Lemma convert_shape isAutoUpdate w :
  (∃ w', convertToPseudocode isAutoUpdate w = Return () w'
         ∧ pseudocodeCache w' = pseudocodeCache w
         ∧ apiKey w' = apiKey w)
  ∨ (∃ req, convertToPseudocode isAutoUpdate w
            = Await (inProgress isAutoUpdate w) req (convertResume isAutoUpdate)).
Proof.
  destruct (activeTextEditor w) as [editor|] eqn:Ha.
  - destruct (textToConvert editor) as [selectedText|] eqn:Ht.
    + destruct (apiKey w) as [key|] eqn:Hk.
      * right. eexists. apply (convert_sends _ _ _ Ha _ _ Ht Hk).
      * left. eexists. rewrite (convert_without_key _ _ _ Ha _ Ht Hk).
        split; [done|]. split; [apply showErrorUnlessAuto_cache|by rewrite showErrorUnlessAuto_apiKey].
    + left. eexists. rewrite (convert_nothing_to_convert _ _ _ Ha Ht).
      split; [done|]. split; [apply showErrorUnlessAuto_cache|by rewrite showErrorUnlessAuto_apiKey].
  - left. eexists. rewrite (convert_without_editor _ _ Ha).
    split; [done|]. split; [apply showErrorUnlessAuto_cache|by rewrite showErrorUnlessAuto_apiKey].
Qed.

Lemma onChangeDisposable_cache contentChanges w :
  pseudocodeCache (onChangeDisposable contentChanges w)
  = if hasRealChanges contentChanges then ∅ else pseudocodeCache w.
Proof.
  unfold onChangeDisposable.
  destruct contentChanges; [done|]. simpl length.
  by destruct (hasRealChanges _).
Qed.

(** A handler called by the host never writes an entry: it keeps the
    cache, or empties it when it is the change listener on a real
    change.  The request that it may leave in flight is one of the two
    kinds. *)
Lemma onChangeDisposable_apiKey contentChanges w :
  apiKey (onChangeDisposable contentChanges w) = apiKey w.
Proof.
  unfold onChangeDisposable.
  destruct contentChanges; [done|]. simpl length.
  by destruct (hasRealChanges _).
Qed.

Lemma host_turn ev w others :
  pseudocodeCache (world (settle ev (dispatch ev w) others))
  = (if invalidates (Host ev) then ∅ else pseudocodeCache w)
  ∧ apiKey (world (settle ev (dispatch ev w) others)) = apiKey w
  ∧ (Forall FlightOf others →
     Forall FlightOf (inflight (settle ev (dispatch ev w) others))).
Proof.
  destruct ev as [cs|fileName|document line| | |editor]; simpl.
  - split; [apply onChangeDisposable_cache|].
    split; [apply onChangeDisposable_apiKey|done].
  - unfold onSaveDisposable. destruct (pseudocodePanel w); [|done].
    by destruct (Js.endsWith _ _).
  - destruct (document !! line) as [lineOfDocument|] eqn:Hl;
      [|by rewrite (provideHover_out_of_range _ _ _ Hl)].
    destruct (hasContent (Js.trim lineOfDocument)) eqn:Hc;
      [|by rewrite (provideHover_skips _ _ _ _ Hl Hc)].
    destruct (apiKey w) as [key|] eqn:Hk;
      [|by rewrite (provideHover_without_key _ _ _ _ Hl Hc Hk)].
    destruct (pseudocodeCache w !! Js.trim lineOfDocument)
      as [cachedPseudocode|] eqn:Hm;
      [by rewrite (provideHover_hit _ _ _ _ Hl _ _ Hc Hk Hm)|].
    rewrite (provideHover_miss _ _ _ _ Hl _ Hc Hk Hm). simpl.
    split; [done|]. split; [done|]. intros Hothers.
    apply Forall_app. split; [done|]. apply Forall_singleton.
    by apply (flight_hover document line lineOfDocument).
  - destruct (convert_shape false w) as [(w' & -> & Hw' & Hk')|[req ->]];
      [done|].
    simpl. split; [done|]. split; [done|]. intros Hothers.
    apply Forall_app. split; [done|]. apply Forall_singleton.
    by apply flight_convert.
  - done.
  - done.
Qed.

(** The response to a request in flight ends its handler, which sends
    nothing more; only the hover provider then writes to the cache, one
    entry under its key, and only when the request is fulfilled with a
    first block. *)
Lemma response_turn f out w others :
  FlightOf f →
  inflight (settle (origin f) (resume f out w) others) = others
  ∧ pseudocodeCache (world (settle (origin f) (resume f out w) others))
    = match hoverKey (origin f), out with
      | Some F, Fulfilled (pseudocode :: _) =>
          <[F := pseudocode]> (pseudocodeCache w)
      | _, _ => pseudocodeCache w
      end
  ∧ apiKey (world (settle (origin f) (resume f out w) others)) = apiKey w.
Proof.
  intros [document line lineOfDocument req Hl Hc|ev isAutoUpdate req Hev]; simpl.
  - rewrite Hl. simpl. by destruct out as [[|pseudocode rest]|err].
  - rewrite Hev.
    destruct (convertResume_settles isAutoUpdate out w) as (w' & -> & Hw' & Hk').
    done.
Qed.

(** A timer that fires runs the automatic conversion: it leaves the
    cache and the credential as they are, and the request that it may
    leave in flight is that of a conversion. *)
Lemma timer_turn s :
  pseudocodeCache (world (step s Timer)) = pseudocodeCache (world s)
  ∧ apiKey (world (step s Timer)) = apiKey (world s)
  ∧ (Forall FlightOf (inflight s) → Forall FlightOf (inflight (step s Timer)))
  ∧ (apiKey (world s) = None → inflight (step s Timer) = inflight s).
Proof.
  simpl. destruct (armedTimers (world s)) as [|fileName timers]; [done|].
  unfold onUpdateTimer.
  destruct (convert_shape true (with_timers timers (world s)))
    as [(w' & -> & Hw' & Hk')|[req Hreq]].
  - done.
  - rewrite Hreq. simpl. split; [done|]. split; [done|]. split.
    + intros Hothers. apply Forall_app. split; [done|].
      apply Forall_singleton. by apply flight_convert.
    + intros Hk.
      destruct (convert_without_key_settles true
                  (with_timers timers (world s)) Hk) as [w' Hw'].
      specialize (Hw' (λ _, Fulfilled [])). by rewrite Hreq in Hw'.
Qed.

Lemma step_flights s t :
  Forall FlightOf (inflight s) → Forall FlightOf (inflight (step s t)).
Proof.
  intros Hs. destruct t as [ev|i out|].
  - by apply host_turn.
  - simpl. destruct (inflight s !! i) as [f|] eqn:Hi; [|done].
    assert (FlightOf f) as Hf.
    { eapply Forall_lookup_1; [exact Hs | exact Hi]. }
    destruct (response_turn f out (world s) (delete i (inflight s)) Hf)
      as (-> & _ & _).
    by apply Forall_delete.
  - by apply timer_turn.
Qed.

Lemma exec_flights ts s :
  Forall FlightOf (inflight s) → Forall FlightOf (inflight (exec ts s)).
Proof.
  revert s. induction ts as [|t ts IH]; intros s Hs; [done|].
  apply IH. by apply step_flights.
Qed.

Lemma reachable_flights s : reachable s → Forall FlightOf (inflight s).
Proof. intros (key & editor & ts & ->). by apply exec_flights. Qed.

Lemma reachable_step s t : reachable s → reachable (step s t).
Proof.
  intros (key & editor & ts & ->). exists key, editor, (ts ++ [t])%list.
  unfold exec. by rewrite foldl_app.
Qed.

Lemma step_keeps_entry F s t :
  Forall FlightOf (inflight s) →
  invalidates t = false → storesUnder F s t = false →
  cached F (step s t) = cached F s.
Proof.
  intros Hs Hinv Hst. unfold cached.
  destruct t as [ev|i out|]; [| |by destruct (timer_turn s) as (-> & _)]; simpl.
  - destruct (host_turn ev (world s) (inflight s)) as (-> & _ & _). by rewrite Hinv.
  - simpl in Hst. destruct (inflight s !! i) as [f|] eqn:Hi; [|done].
    assert (FlightOf f) as Hf.
    { eapply Forall_lookup_1; [exact Hs | exact Hi]. }
    destruct (response_turn f out (world s) (delete i (inflight s)) Hf)
      as (_ & -> & _).
    destruct (hoverKey (origin f)) as [F'|] eqn:HF'; [|done].
    destruct out as [[|pseudocode rest]|err]; try done.
    apply bool_decide_eq_false in Hst.
    apply lookup_insert_ne. congruence.
Qed.

Lemma exec_keeps_entry F ts s :
  Forall FlightOf (inflight s) →
  undisturbed F s ts = true →
  cached F (exec ts s) = cached F s.
Proof.
  revert s. induction ts as [|t ts IH]; intros s Hs Hts; [done|].
  simpl in Hts. apply andb_true_iff in Hts as [Ht Hts].
  apply andb_true_iff in Ht as [Hinv Hst].
  apply negb_true_iff in Hinv. apply negb_true_iff in Hst.
  simpl. rewrite IH; [|by apply step_flights|done].
  by apply step_keeps_entry.
Qed.

(** ** C2: a stored explanation stays *)

(** C2.  In the running extension, the store happens when a fulfilled
    response arrives for a hover whose key is [F].  Right after it the
    lookup of [F] gives the explanation that was stored, and it goes on
    giving it through every sequence of turns of the event loop in which
    no change event empties the cache and no later response stores under
    [F] again. *)
Theorem stored_explanation_is_looked_up s i f F pseudocode rest ts :
  reachable s →
  inflight s !! i = Some f →
  hoverKey (origin f) = Some F →
  cached F (step s (Response i (Fulfilled (pseudocode :: rest))))
  = Some pseudocode
  ∧ (undisturbed F (step s (Response i (Fulfilled (pseudocode :: rest)))) ts
     = true →
     cached F (exec ts (step s (Response i (Fulfilled (pseudocode :: rest)))))
     = Some pseudocode).
Proof.
  intros Hs Hi HF.
  pose proof (reachable_flights s Hs) as Hflights.
  assert (cached F (step s (Response i (Fulfilled (pseudocode :: rest))))
          = Some pseudocode) as Hstored.
  { unfold cached. simpl. rewrite Hi.
    assert (FlightOf f) as Hf.
    { eapply Forall_lookup_1; [exact Hflights | exact Hi]. }
    destruct (response_turn f (Fulfilled (pseudocode :: rest)) (world s)
                (delete i (inflight s)) Hf) as (_ & -> & _).
    rewrite HF. apply lookup_insert_eq. }
  split; [done|]. intros Hts.
  rewrite exec_keeps_entry; [done| |done].
  by apply step_flights.
Qed.

Lemma stored_explanation_is_looked_up_witness :
  cached "x = 1" (step hovering (Response 0 (Fulfilled ["SET x TO 1"])))
  = Some "SET x TO 1"
  ∧ cached "x = 1"
      (exec quietTurns (step hovering (Response 0 (Fulfilled ["SET x TO 1"]))))
    = Some "SET x TO 1".
Proof.
  destruct (stored_explanation_is_looked_up hovering 0 hoverFlight "x = 1"
              "SET x TO 1" [] quietTurns) as [Hstored Hkept].
  - exists (Some sampleKey), None, [Host (HoverRequested ["x = 1"] 0)].
    reflexivity.
  - reflexivity.
  - reflexivity.
  - split; [exact Hstored | apply Hkept; vm_compute; reflexivity].
Defined.

(** While the entry is there, a hover on a line with that key shows it
    and sends nothing. *)
Lemma hover_after_store s F pseudocode document line lineOfDocument key :
  cached F s = Some pseudocode →
  document !! line = Some lineOfDocument →
  Js.trim lineOfDocument = F →
  hasContent F = true →
  apiKey (world s) = Some key →
  step s (Host (HoverRequested document line)) = s.
Proof.
  intros Hc Hl <- Hcontent Hk. simpl.
  rewrite (provideHover_hit _ _ _ _ Hl _ _ Hcontent Hk Hc). simpl.
  by destruct s.
Qed.

(** Two hovers on the same line before any answer both go to the
    service, and both answers are stored: the last one stays. *)
Lemma concurrent_misses_both_call :
  length (inflight (exec [Host (HoverRequested ["x = 1"] 0);
                          Host (HoverRequested ["x = 1"] 0)]
                      (boot (Some sampleKey) None))) = 2%nat
  ∧ cached "x = 1"
      (exec [Host (HoverRequested ["x = 1"] 0);
             Host (HoverRequested ["x = 1"] 0);
             Response 0 (Fulfilled ["SET x TO 1"]);
             Response 0 (Fulfilled ["x := 1"])]
         (boot (Some sampleKey) None))
    = Some "x := 1".
Proof. split; reflexivity. Qed.

(** ** C1: a cached line is served from the cache *)

Lemma FlightOf_key_has_content f F :
  FlightOf f → hoverKey (origin f) = Some F → hasContent F = true.
Proof.
  intros [document line lineOfDocument req Hl Hc|ev isAutoUpdate req Hev]; simpl.
  - rewrite Hl. by intros [= <-].
  - by rewrite Hev.
Qed.

(** Only lines with content get an entry. *)
Lemma step_keys_have_content s t :
  Forall FlightOf (inflight s) →
  (∀ F E, cached F s = Some E → hasContent F = true) →
  ∀ F E, cached F (step s t) = Some E → hasContent F = true.
Proof.
  intros Hs Hkeys F E. unfold cached.
  destruct t as [ev|i out|];
    [| |destruct (timer_turn s) as (-> & _); apply Hkeys]; simpl.
  - destruct (host_turn ev (world s) (inflight s)) as (-> & _ & _).
    destruct (invalidates (Host ev)); [done|]. apply Hkeys.
  - destruct (inflight s !! i) as [f|] eqn:Hi; [|apply Hkeys].
    assert (FlightOf f) as Hf.
    { eapply Forall_lookup_1; [exact Hs | exact Hi]. }
    destruct (response_turn f out (world s) (delete i (inflight s)) Hf)
      as (_ & -> & _).
    destruct (hoverKey (origin f)) as [F'|] eqn:HF'; [|apply Hkeys].
    destruct out as [[|pseudocode rest]|err]; try apply Hkeys.
    destruct (decide (F' = F)) as [->|Hne].
    + intros _. by apply (FlightOf_key_has_content f).
    + rewrite lookup_insert_ne by done. apply Hkeys.
Qed.

Lemma reachable_keys_have_content s F E :
  reachable s → cached F s = Some E → hasContent F = true.
Proof.
  intros (key & editor & ts & ->). revert F E.
  assert (∀ s0, Forall FlightOf (inflight s0) →
                (∀ F E, cached F s0 = Some E → hasContent F = true) →
                ∀ F E, cached F (exec ts s0) = Some E → hasContent F = true)
    as Hgen.
  { induction ts as [|t ts IH]; intros s0 Hs0 Hkeys; [done|].
    simpl. apply IH; [by apply step_flights|by apply step_keys_have_content]. }
  apply Hgen; [done|]. intros F E. unfold cached. simpl.
  by rewrite lookup_empty.
Qed.

(** Without a credential nothing is sent, so nothing is ever stored:
    an entry in the cache tells that a credential is there. *)
Lemma host_turn_without_key ev w others :
  apiKey w = None → inflight (settle ev (dispatch ev w) others) = others.
Proof.
  intros Hk. destruct ev as [cs|fileName|document line| | |editor]; simpl;
    try done.
  - unfold onSaveDisposable. destruct (pseudocodePanel w); [|done].
    by destruct (Js.endsWith _ _).
  - destruct (document !! line) as [lineOfDocument|] eqn:Hl.
    + destruct (hasContent (Js.trim lineOfDocument)) eqn:Hc.
      * by rewrite (provideHover_without_key _ _ _ _ Hl Hc Hk).
      * by rewrite (provideHover_skips _ _ _ _ Hl Hc).
    + by rewrite (provideHover_out_of_range _ _ _ Hl).
  - destruct (convert_shape false w) as [(w' & -> & _)|[req Hreq]]; [done|].
    destruct (convert_without_key_settles false w Hk) as [w' Hw'].
    specialize (Hw' (λ _, Fulfilled [])). by rewrite Hreq in Hw'.
Qed.

Lemma step_without_key s t :
  Forall FlightOf (inflight s) →
  (apiKey (world s) = None →
   pseudocodeCache (world s) = ∅
   ∧ Forall (λ f, hoverKey (origin f) = None) (inflight s)) →
  apiKey (world (step s t)) = None →
  pseudocodeCache (world (step s t)) = ∅
  ∧ Forall (λ f, hoverKey (origin f) = None) (inflight (step s t)).
Proof.
  intros Hs Hinv. destruct t as [ev|i out|].
  2: simpl.
  3: { destruct (timer_turn s) as (-> & -> & _ & Hsame).
       intros Hk. rewrite (Hsame Hk). by apply Hinv. }
  - simpl. destruct (host_turn ev (world s) (inflight s)) as (-> & -> & _).
    intros Hk. destruct (Hinv Hk) as [Hcache Hnone].
    rewrite (host_turn_without_key _ _ _ Hk), Hcache.
    split; [by destruct (invalidates _)|done].
  - destruct (inflight s !! i) as [f|] eqn:Hi; [|done].
    assert (FlightOf f) as Hf.
    { eapply Forall_lookup_1; [exact Hs | exact Hi]. }
    destruct (response_turn f out (world s) (delete i (inflight s)) Hf)
      as (-> & -> & ->).
    intros Hk. destruct (Hinv Hk) as [Hcache Hnone].
    assert (hoverKey (origin f) = None) as ->.
    { eapply (Forall_lookup_1 _ _ _ _ Hnone Hi). }
    split; [done|]. by apply Forall_delete.
Qed.

Lemma reachable_entry_has_key s F E :
  reachable s → cached F s = Some E → ∃ key, apiKey (world s) = Some key.
Proof.
  intros (key & editor & ts & ->).
  assert (∀ s0, Forall FlightOf (inflight s0) →
                (apiKey (world s0) = None →
                 pseudocodeCache (world s0) = ∅
                 ∧ Forall (λ f, hoverKey (origin f) = None) (inflight s0)) →
                apiKey (world (exec ts s0)) = None →
                pseudocodeCache (world (exec ts s0)) = ∅) as Hgen.
  { induction ts as [|t ts IH]; intros s0 Hs0 Hinv; [by intros [? _]%Hinv|].
    simpl. apply IH; [by apply step_flights|by apply step_without_key]. }
  unfold cached. intros Hentry.
  destruct (apiKey (world (exec ts (boot key editor)))) as [k|] eqn:Hk;
    [by exists k|].
  rewrite Hgen in Hentry; [by rewrite lookup_empty in Hentry|done|done|done].
Qed.

(** C1, as amended.  In the running extension, when the trimmed text of
    the line under the cursor has an entry in the cache, the hover
    provider returns the cached explanation, sends no request to the
    service and leaves the state as it was. *)
Theorem hover_serves_cached_line
    s document line lineOfDocument cachedPseudocode :
  reachable s →
  document !! line = Some lineOfDocument →
  cached (Js.trim lineOfDocument) s = Some cachedPseudocode →
  provideHover document line (world s)
  = Return (Some {| codeblock :=
                      cachedBlock line (Js.trim lineOfDocument)
                        cachedPseudocode |}) (world s)
  ∧ (∀ serve,
       requests (run serve (provideHover document line (world s))) = []
       ∧ final (run serve (provideHover document line (world s))) = world s)
  ∧ step s (Host (HoverRequested document line)) = s.
Proof.
  intros Hs Hl Hm.
  pose proof (reachable_keys_have_content _ _ _ Hs Hm) as Hc.
  destruct (reachable_entry_has_key _ _ _ Hs Hm) as [key Hk].
  pose proof (provideHover_hit _ _ _ _ Hl _ _ Hc Hk Hm) as Hhit.
  split; [done|]. split.
  - intros serve. by rewrite Hhit.
  - simpl. rewrite Hhit. simpl. by destruct s.
Qed.

Lemma hover_serves_cached_line_witness :
  provideHover ["if x:"; "    x = 1"] 1
    (world (step hovering (Response 0 (Fulfilled ["SET x TO 1"]))))
  = Return (Some {| codeblock := cachedBlock 1 "x = 1" "SET x TO 1" |})
      (world (step hovering (Response 0 (Fulfilled ["SET x TO 1"]))))
  ∧ requests
      (run unreachableService
         (provideHover ["if x:"; "    x = 1"] 1
            (world (step hovering (Response 0 (Fulfilled ["SET x TO 1"]))))))
    = [].
Proof.
  destruct (hover_serves_cached_line
              (step hovering (Response 0 (Fulfilled ["SET x TO 1"])))
              ["if x:"; "    x = 1"] 1 "    x = 1" "SET x TO 1")
    as (Hhit & Hrun & _).
  - exists (Some sampleKey), None,
      [Host (HoverRequested ["x = 1"] 0); Response 0 (Fulfilled ["SET x TO 1"])].
    reflexivity.
  - reflexivity.
  - reflexivity.
  - split; [exact Hhit | apply Hrun].
Defined.

(** The explanation is the last part of what the hover shows. *)
Lemma cachedBlock_ends_with_explanation line lineText cachedPseudocode :
  ∃ heading, cachedBlock line lineText cachedPseudocode
             = heading +:+ cachedPseudocode.
Proof.
  exists ("📝 Pseudocode (快取)" +:+ Js.nl +:+ "Line " +:+ pretty (line + 1)%nat
          +:+ ": " +:+ lineText +:+ Js.nl +:+ Js.nl).
  unfold cachedBlock. by rewrite !string_app_assoc.
Qed.

(** C1 fails as it is stated.  The command never reads the cache: on a
    selection that the cache holds, it sends a request to the service
    and shows what the service answers, not the cached explanation. *)
Lemma cached_fragment_not_served :
  cached "x = 1" cachedAndSelected = Some "SET x TO 1"
  ∧ selectionText <$> activeTextEditor (world cachedAndSelected) = Some "x = 1"
  ∧ requests
      (run (echoService "x := 1")
         (convertToPseudocode false (world cachedAndSelected)))
    = [messagesRequest sampleKey "x = 1"]
  ∧ pseudocodePanel
      (final
         (run (echoService "x := 1")
            (convertToPseudocode false (world cachedAndSelected))))
    = Some "x := 1".
Proof. by repeat split. Qed.

(** * Further properties of the code *)

(** ** escapeHtml *)

Lemma string_app_cons a (s t : string) :
  String a s +:+ t = String a (s +:+ t).
Proof. reflexivity. Qed.

Lemma string_app_nil_r (s : string) : s +:+ "" = s.
Proof.
  induction s as [|a s IH]; [done|]. by rewrite string_app_cons, IH.
Qed.

Lemma replaceAll_app c t (s1 s2 : string) :
  Js.replaceAll c t (s1 +:+ s2)
  = Js.replaceAll c t s1 +:+ Js.replaceAll c t s2.
Proof.
  induction s1 as [|a s1 IH]; [done|].
  rewrite string_app_cons. simpl. by rewrite IH, string_app_assoc.
Qed.

Lemma occurs_app c (s1 s2 : string) :
  occurs c (s1 +:+ s2) = occurs c s1 || occurs c s2.
Proof.
  induction s1 as [|a s1 IH]; [done|].
  rewrite string_app_cons. simpl. by rewrite IH, orb_assoc.
Qed.

Lemma escapeHtml_app (s1 s2 : string) :
  escapeHtml (s1 +:+ s2) = escapeHtml s1 +:+ escapeHtml s2.
Proof. unfold escapeHtml. by rewrite !replaceAll_app. Qed.

Lemma escapeHtml_single a : escapeHtml (String a "") = entity a.
Proof.
  unfold entity.
  destruct (Ascii.eqb a "&") eqn:Hamp; [by apply Ascii.eqb_eq in Hamp as ->|].
  destruct (Ascii.eqb a "<") eqn:Hlt; [by apply Ascii.eqb_eq in Hlt as ->|].
  destruct (Ascii.eqb a ">") eqn:Hgt; [by apply Ascii.eqb_eq in Hgt as ->|].
  destruct (Ascii.eqb a (ascii_of_nat 34)) eqn:Hdq;
    [by apply Ascii.eqb_eq in Hdq as ->|].
  destruct (Ascii.eqb a (ascii_of_nat 39)) eqn:Hsq;
    [by apply Ascii.eqb_eq in Hsq as ->|].
  unfold escapeHtml. simpl.
  rewrite Hamp. simpl. rewrite Hlt. simpl. rewrite Hgt. simpl.
  rewrite Hdq. simpl. by rewrite Hsq.
Qed.

(** The five replacements, one after the other, come to one pass that
    puts an entity in the place of each character. *)
Lemma escapeHtml_cons a s : escapeHtml (String a s) = entity a +:+ escapeHtml s.
Proof.
  change (String a s) with (String a "" +:+ s).
  by rewrite escapeHtml_app, escapeHtml_single.
Qed.

Ltac case_entity a :=
  unfold entity;
  destruct (Ascii.eqb a "&") eqn:?;
  [|destruct (Ascii.eqb a "<") eqn:?;
    [|destruct (Ascii.eqb a ">") eqn:?;
      [|destruct (Ascii.eqb a (ascii_of_nat 34)) eqn:?;
        [|destruct (Ascii.eqb a (ascii_of_nat 39)) eqn:?]]]].

Lemma entity_has_no_markup a c : markup c = true → occurs c (entity a) = false.
Proof.
  unfold markup. rewrite !orb_true_iff, !Ascii.eqb_eq.
  intros [[[->| ->]| ->]| ->]; case_entity a; try reflexivity;
    simpl; by rewrite orb_false_r.
Qed.

(** X1.  The text that [escapeHtml] returns has no [<], no [>] and no
    quote of either kind, whatever the text it is given. *)
Theorem escapeHtml_leaves_no_markup s c :
  markup c = true → occurs c (escapeHtml s) = false.
Proof.
  intros Hc. induction s as [|a s IH]; [done|].
  by rewrite escapeHtml_cons, occurs_app, IH, entity_has_no_markup.
Qed.

Lemma escapeHtml_leaves_no_markup_witness :
  occurs "<" (escapeHtml "if a < b && c > 'd': print(<x>)") = false.
Proof.
  apply (escapeHtml_leaves_no_markup "if a < b && c > 'd': print(<x>)" "<").
  reflexivity.
Defined.

(** X2.  The five replacements of [escapeHtml], applied one after the
    other to the whole text, escape each character once and on its own:
    the result is the entity of each character in turn, and the
    ampersand that an earlier replacement wrote is not escaped again.
    So the escape of two texts put together is the two escapes put
    together. *)
Theorem escapeHtml_is_one_pass s1 s2 :
  escapeHtml s1 = entities s1
  ∧ escapeHtml (s1 +:+ s2) = escapeHtml s1 +:+ escapeHtml s2.
Proof.
  split; [|apply escapeHtml_app].
  induction s1 as [|a s1 IH]; [done|].
  rewrite escapeHtml_cons, IH. done.
Qed.

Lemma entity_not_empty a : entity a ≠ "".
Proof. by case_entity a. Qed.

Lemma entity_prefix_free a1 a2 (x y : string) :
  entity a1 +:+ x = entity a2 +:+ y → a1 = a2 ∧ x = y.
Proof.
  case_entity a1; case_entity a2;
    cbv beta iota delta [String.append]; intros [=]; subst;
    repeat match goal with
           | H : Ascii.eqb _ _ = true |- _ => apply Ascii.eqb_eq in H; subst
           end;
    try done.
Qed.

(** X3.  [escapeHtml] tells any two texts apart: texts with the same
    escape are the same text. *)
Theorem escapeHtml_injective s1 s2 : escapeHtml s1 = escapeHtml s2 → s1 = s2.
Proof.
  revert s2. induction s1 as [|a1 s1 IH]; intros [|a2 s2].
  - done.
  - rewrite escapeHtml_cons. intros H. symmetry in H.
    destruct (entity a2) eqn:Ha2; [by destruct (entity_not_empty a2)|done].
  - rewrite escapeHtml_cons. intros H.
    destruct (entity a1) eqn:Ha1; [by destruct (entity_not_empty a1)|done].
  - rewrite !escapeHtml_cons. intros [-> H]%entity_prefix_free.
    by rewrite (IH _ H).
Qed.

Lemma escapeHtml_injective_witness :
  "if a < b:" = "if a " +:+ "< b:".
Proof.
  apply (escapeHtml_injective "if a < b:" ("if a " +:+ "< b:")). reflexivity.
Defined.

(** An escaped text and the text it stands for are told apart too. *)
Lemma escaped_twice_differs : escapeHtml "a &lt; b" ≠ escapeHtml "a < b".
Proof. by vm_compute. Qed.

(** ** The command and the save listener: what the user sees *)

Lemma errorMessages_showErrorUnlessAuto isAutoUpdate msg w :
  errorMessages (showErrorUnlessAuto isAutoUpdate msg w)
  = if isAutoUpdate then errorMessages w else msg :: errorMessages w.
Proof. by destruct isAutoUpdate. Qed.

Lemma showErrorUnlessAuto_panel isAutoUpdate msg w :
  pseudocodePanel (showErrorUnlessAuto isAutoUpdate msg w) = pseudocodePanel w.
Proof. by destruct isAutoUpdate. Qed.


Lemma automatic_conversion_cases w serve :
  errorMessages (final (run serve (convertToPseudocode true w)))
  = errorMessages w
  ∧ pseudocodeCache (final (run serve (convertToPseudocode true w)))
    = pseudocodeCache w
  ∧ (requests (run serve (convertToPseudocode true w)) = []
     → final (run serve (convertToPseudocode true w)) = w).
Proof.
  destruct (activeTextEditor w) as [editor|] eqn:Ha.
  - destruct (textToConvert editor) as [selectedText|] eqn:Ht.
    + destruct (apiKey w) as [key|] eqn:Hk.
      * rewrite (convert_sends _ _ _ Ha _ _ Ht Hk). simpl.
        by destruct (serve (messagesRequest key selectedText))
          as [[|pseudocode rest]|err].
      * by rewrite (convert_without_key _ _ _ Ha _ Ht Hk).
    + by rewrite (convert_nothing_to_convert _ _ _ Ha Ht).
  - by rewrite (convert_without_editor _ _ Ha).
Qed.

(** X5.  The save listener never shows an error message and never
    writes to the cache, whatever the file, the state and the answer of
    the service, and neither does the timer that it sets, in whatever
    state it fires: a failed automatic update leaves the panel with
    what it showed before. *)
Theorem save_listener_is_silent fileName w serve :
  errorMessages (final (run serve (onSaveDisposable fileName w)))
  = errorMessages w
  ∧ pseudocodeCache (final (run serve (onSaveDisposable fileName w)))
    = pseudocodeCache w
  ∧ ((∀ req pseudocode rest, serve req ≠ Fulfilled (pseudocode :: rest)) →
     pseudocodePanel (final (run serve (onSaveDisposable fileName w)))
     = pseudocodePanel w)
  ∧ ∀ w',
      errorMessages (final (run serve (onUpdateTimer w'))) = errorMessages w'
      ∧ pseudocodeCache (final (run serve (onUpdateTimer w')))
        = pseudocodeCache w'
      ∧ ((∀ req pseudocode rest, serve req ≠ Fulfilled (pseudocode :: rest)) →
         pseudocodePanel (final (run serve (onUpdateTimer w')))
         = pseudocodePanel w').
Proof.
  split; [|split; [|split]].
  - unfold onSaveDisposable. destruct (pseudocodePanel w); [|done].
    by destruct (Js.endsWith _ _).
  - unfold onSaveDisposable. destruct (pseudocodePanel w); [|done].
    by destruct (Js.endsWith _ _).
  - intros _. unfold onSaveDisposable.
    destruct (pseudocodePanel w) eqn:Hp; [|done].
    by destruct (Js.endsWith _ _).
  - intros w'. unfold onUpdateTimer.
    destruct (automatic_conversion_cases w' serve) as (Herr & Hcache & _).
    split; [done|]. split; [done|]. intros Hfail.
    destruct (activeTextEditor w') as [editor|] eqn:Ha.
    + destruct (textToConvert editor) as [selectedText|] eqn:Ht.
      * destruct (apiKey w') as [key|] eqn:Hk.
        -- rewrite (convert_sends _ _ _ Ha _ _ Ht Hk). simpl.
           destruct (serve (messagesRequest key selectedText))
             as [[|pseudocode rest]|err] eqn:Hserve; try done.
           by destruct (Hfail _ _ _ Hserve).
        -- by rewrite (convert_without_key _ _ _ Ha _ Ht Hk).
      * by rewrite (convert_nothing_to_convert _ _ _ Ha Ht).
    + by rewrite (convert_without_editor _ _ Ha).
Qed.

Lemma onUpdateTimer_cases w serve :
  (∃ key selectedText,
     timerConverts w key selectedText
     ∧ onUpdateTimer w
       = Await (inProgress true w) (messagesRequest key selectedText)
           (convertResume true)
     ∧ requests (run serve (onUpdateTimer w))
       = [messagesRequest key selectedText])
  ∨ ((∀ key selectedText, ¬ timerConverts w key selectedText)
     ∧ onUpdateTimer w = Return () w).
Proof.
  unfold onUpdateTimer, timerConverts.
  destruct (activeTextEditor w) as [editor|] eqn:Ha.
  - destruct (textToConvert editor) as [selectedText|] eqn:Ht.
    + destruct (apiKey w) as [key|] eqn:Hk.
      * left. exists key, selectedText. simpl. rewrite Ht.
        split; [done|].
        rewrite (convert_sends _ _ _ Ha _ _ Ht Hk). split; [done|]. simpl.
        by destruct (convertResume_settles true
                       (serve (messagesRequest key selectedText))
                       (inProgress true w)) as (w' & -> & _).
      * right. split; [by intros key' text' (_ & [=])|].
        by rewrite (convert_without_key _ _ _ Ha _ Ht Hk).
    + right. simpl. rewrite Ht.
      split; [by intros key' text' ([=] & _)|].
      by rewrite (convert_nothing_to_convert _ _ _ Ha Ht).
  - right. split; [by intros key' text' ([=] & _)|].
    by rewrite (convert_without_editor _ _ Ha).
Qed.

(** X6.  The save listener sends nothing itself.  With the panel open
    and a Python file it sets a timer and returns; otherwise it does
    nothing at all.  When a timer fires, a request is sent exactly when
    the active editor of that moment has a text to convert and a
    credential is there, and the request carries that text; in every
    other case the timer does nothing at all.  In the event loop the
    oldest timer is the one that fires, and the state that it reads is
    the one of the turn in which it fires. *)
Theorem save_sets_a_timer_that_converts fileName w serve :
  run serve (onSaveDisposable fileName w)
  = (Returned (),
     if armsTimer fileName w
     then with_timers (armedTimers w ++ [fileName]) w else w,
     [])
  ∧ (∀ w',
       (∃ key selectedText,
          timerConverts w' key selectedText
          ∧ requests (run serve (onUpdateTimer w'))
            = [messagesRequest key selectedText])
       ∨ ((∀ key selectedText, ¬ timerConverts w' key selectedText)
          ∧ run serve (onUpdateTimer w') = (Returned (), w', [])))
  ∧ (∀ s saved timers key selectedText,
       armedTimers (world s) = saved :: timers →
       timerConverts (world s) key selectedText →
       armedTimers (world (step s Timer)) = timers
       ∧ request <$> inflight (step s Timer)
         = ((request <$> inflight s) ++ [messagesRequest key selectedText])%list)
  ∧ (∀ s saved timers,
       armedTimers (world s) = saved :: timers →
       (∀ key selectedText, ¬ timerConverts (world s) key selectedText) →
       step s Timer
       = {| world := with_timers timers (world s); inflight := inflight s |}).
Proof.
  split; [|split; [|split]].
  - unfold onSaveDisposable, armsTimer, isPythonFile.
    destruct (pseudocodePanel w); [|done]. by destruct (Js.endsWith _ _).
  - intros w'.
    destruct (onUpdateTimer_cases w' serve)
      as [(key & selectedText & Hc & _ & Hreq)|[Hnone ->]].
    + left. by exists key, selectedText.
    + by right.
  - intros s saved timers key selectedText Htimers Hconv. simpl.
    rewrite Htimers.
    destruct (onUpdateTimer_cases (with_timers timers (world s)) serve)
      as [(key' & text' & [Ht' Hk'] & -> & _)|[Hnone _]].
    + destruct Hconv as [Ht Hk]. simpl in Ht', Hk'.
      change (apiKey (with_timers timers (world s))) with (apiKey (world s))
        in Hk'.
      rewrite Ht in Ht'. rewrite Hk in Hk'.
      injection Ht' as <-. injection Hk' as <-. simpl.
      split; [done|]. by rewrite fmap_app.
    + by destruct (Hnone key selectedText).
  - intros s saved timers Htimers Hnone. simpl. rewrite Htimers.
    destruct (onUpdateTimer_cases (with_timers timers (world s)) serve)
      as [(key' & text' & Hconv & _)|[_ ->]]; [|done].
    by destruct (Hnone key' text').
Qed.

(** The text that is converted is the one of the editor when the timer
    fires, not the one of the editor when the file was saved. *)
Lemma timer_reads_the_editor_when_it_fires :
  request <$>
    inflight
      (exec [ Host CommandInvoked;
              Response 0 (Fulfilled ["SET a TO 1"]);
              Host (DidSaveTextDocument "main.py");
              Host (EditorChanged
                      (Some {| selectionText := "after = 2";
                               documentText := "after = 2" |}));
              Timer ]
         (boot (Some sampleKey)
            (Some {| selectionText := "before = 1";
                     documentText := "before = 1" |})))
  = [messagesRequest sampleKey "after = 2"].
Proof. reflexivity. Qed.

(** ** The event loop: requests in flight *)

Lemma response_removes_its_flight s i f out :
  Forall FlightOf (inflight s) →
  inflight s !! i = Some f →
  inflight (step s (Response i out)) = delete i (inflight s).
Proof.
  intros Hs Hi. simpl. rewrite Hi.
  assert (FlightOf f) as Hf.
  { eapply Forall_lookup_1; [exact Hs | exact Hi]. }
  by destruct (response_turn f out (world s) (delete i (inflight s)) Hf)
    as (-> & _ & _).
Qed.

Lemma showErrorUnlessAuto_timers isAutoUpdate msg w :
  armedTimers (showErrorUnlessAuto isAutoUpdate msg w) = armedTimers w.
Proof. by destruct isAutoUpdate. Qed.

(** A conversion leaves the timers alone and leaves at most one request
    in flight. *)
Lemma convert_count ev isAutoUpdate w others :
  (length (inflight (settle ev (convertToPseudocode isAutoUpdate w) others))
   ≤ length others + 1)%nat
  ∧ armedTimers (world (settle ev (convertToPseudocode isAutoUpdate w) others))
    = armedTimers w.
Proof.
  destruct (activeTextEditor w) as [editor|] eqn:Ha.
  - destruct (textToConvert editor) as [selectedText|] eqn:Ht.
    + destruct (apiKey w) as [key|] eqn:Hk.
      * rewrite (convert_sends _ _ _ Ha _ _ Ht Hk). simpl.
        rewrite length_app. simpl. split; [lia|done].
      * rewrite (convert_without_key _ _ _ Ha _ Ht Hk). simpl.
        split; [lia|apply showErrorUnlessAuto_timers].
    + rewrite (convert_nothing_to_convert _ _ _ Ha Ht). simpl.
      split; [lia|apply showErrorUnlessAuto_timers].
  - rewrite (convert_without_editor _ _ Ha). simpl.
    split; [lia|apply showErrorUnlessAuto_timers].
Qed.

Lemma onChangeDisposable_timers contentChanges w :
  armedTimers (onChangeDisposable contentChanges w) = armedTimers w.
Proof.
  unfold onChangeDisposable.
  destruct contentChanges; [done|]. simpl length.
  by destruct (hasRealChanges _).
Qed.

Lemma host_count ev w others :
  (length (inflight (settle ev (dispatch ev w) others))
   + length (armedTimers (world (settle ev (dispatch ev w) others)))
   ≤ length others + length (armedTimers w) + 1)%nat.
Proof.
  destruct ev as [cs|fileName|document line| | |editor]; simpl.
  - rewrite onChangeDisposable_timers. lia.
  - unfold onSaveDisposable. destruct (pseudocodePanel w); simpl; [|lia].
    destruct (Js.endsWith _ _); simpl; rewrite ?length_app; simpl; lia.
  - destruct (document !! line) as [lineOfDocument|] eqn:Hl;
      [|rewrite (provideHover_out_of_range _ _ _ Hl); simpl; lia].
    destruct (hasContent (Js.trim lineOfDocument)) eqn:Hc;
      [|rewrite (provideHover_skips _ _ _ _ Hl Hc); simpl; lia].
    destruct (apiKey w) as [key|] eqn:Hk;
      [|rewrite (provideHover_without_key _ _ _ _ Hl Hc Hk); simpl; lia].
    destruct (pseudocodeCache w !! Js.trim lineOfDocument)
      as [cachedPseudocode|] eqn:Hm;
      [rewrite (provideHover_hit _ _ _ _ Hl _ _ Hc Hk Hm); simpl; lia|].
    rewrite (provideHover_miss _ _ _ _ Hl _ Hc Hk Hm). simpl.
    rewrite length_app. simpl. lia.
  - destruct (convert_count CommandInvoked false w others) as [Hn ->]. lia.
  - lia.
  - lia.
Qed.

Lemma response_timers f out w others :
  FlightOf f →
  armedTimers (world (settle (origin f) (resume f out w) others))
  = armedTimers w.
Proof.
  intros [document line lineOfDocument req Hl Hc|ev isAutoUpdate req Hev]; simpl.
  - by destruct out as [[|pseudocode rest]|err].
  - destruct out as [[|pseudocode rest]|err]; simpl; try done;
      apply showErrorUnlessAuto_timers.
Qed.

Lemma step_inflight_bound s t :
  Forall FlightOf (inflight s) →
  (length (inflight (step s t)) + length (armedTimers (world (step s t)))
   ≤ length (inflight s) + length (armedTimers (world s)) + hostTurns [t])%nat.
Proof.
  intros Hs. destruct t as [ev|i out|].
  - simpl step. simpl hostTurns. apply host_count.
  - destruct (inflight s !! i) as [f|] eqn:Hi.
    + assert (FlightOf f) as Hf.
      { eapply Forall_lookup_1; [exact Hs | exact Hi]. }
      rewrite (response_removes_its_flight _ _ _ _ Hs Hi).
      simpl. rewrite Hi, (response_timers _ _ _ _ Hf).
      rewrite length_delete by by eexists. lia.
    + simpl. rewrite Hi. lia.
  - simpl. destruct (armedTimers (world s)) as [|fileName timers] eqn:Ht.
    + rewrite Ht. lia.
    + unfold onUpdateTimer.
      destruct (convert_count (DidSaveTextDocument fileName) true
                  (with_timers timers (world s)) (inflight s)) as [Hn ->].
      simpl. lia.
Qed.

Lemma hostTurns_cons t ts :
  hostTurns (t :: ts) = (hostTurns [t] + hostTurns ts)%nat.
Proof. by destruct t. Qed.

Lemma exec_inflight_bound ts s :
  Forall FlightOf (inflight s) →
  (length (inflight (exec ts s)) + length (armedTimers (world (exec ts s)))
   ≤ length (inflight s) + length (armedTimers (world s)) + hostTurns ts)%nat.
Proof.
  revert s. induction ts as [|t ts IH]; intros s Hs; [simpl; lia|].
  change (exec (t :: ts) s) with (exec ts (step s t)).
  rewrite hostTurns_cons.
  pose proof (IH (step s t) (step_flights s t Hs)).
  pose proof (step_inflight_bound s t Hs). lia.
Qed.

(** X7.  No handler sends a second request: when the response to a
    request in flight arrives, that request leaves and nothing takes its
    place, whatever the outcome.  So, from the start of the extension,
    the requests in flight are never more than the calls of the host: a
    save sets one timer, and a timer sends one request at most. *)
Theorem no_request_is_sent_again key editor ts i f out :
  inflight (exec ts (boot key editor)) !! i = Some f →
  inflight (step (exec ts (boot key editor)) (Response i out))
  = delete i (inflight (exec ts (boot key editor)))
  ∧ (length (inflight (exec ts (boot key editor))) ≤ hostTurns ts)%nat.
Proof.
  intros Hi. split.
  - apply (response_removes_its_flight _ _ f); [|done].
    by apply exec_flights.
  - pose proof (exec_inflight_bound ts (boot key editor)) as Hbound.
    simpl in Hbound. specialize (Hbound (Forall_nil_2 _)). lia.
Qed.

Lemma no_request_is_sent_again_witness :
  inflight
    (step (exec [Host (HoverRequested ["x = 1"] 0)] (boot (Some sampleKey) None))
       (Response 0 (failingService 500 None (messagesRequest sampleKey "x = 1"))))
  = [].
Proof.
  destruct (no_request_is_sent_again (Some sampleKey) None
              [Host (HoverRequested ["x = 1"] 0)] 0 hoverFlight
              (failingService 500 None (messagesRequest sampleKey "x = 1")))
    as [Hgone _]; [reflexivity|].
  exact Hgone.
Defined.

(** X8.  An invalidation does not reach the requests in flight.  When
    the cache is emptied while a hover waits for its answer, the answer
    that arrives afterwards, asked for the text as it was, is stored
    all the same. *)
Theorem answer_after_invalidation_is_stored
    s i f F contentChanges pseudocode rest :
  reachable s →
  inflight s !! i = Some f →
  hoverKey (origin f) = Some F →
  hasRealChanges contentChanges = true →
  cached F (step s (Host (DidChangeTextDocument contentChanges))) = None
  ∧ cached F
      (exec [ Host (DidChangeTextDocument contentChanges);
              Response i (Fulfilled (pseudocode :: rest)) ] s)
    = Some pseudocode.
Proof.
  intros Hs Hi HF Hreal.
  pose proof (reachable_flights s Hs) as Hflights.
  assert (FlightOf f) as Hf.
  { eapply Forall_lookup_1; [exact Hflights | exact Hi]. }
  split.
  - unfold cached. simpl. rewrite onChangeDisposable_cache, Hreal.
    apply lookup_empty.
  - unfold cached. simpl. rewrite Hi.
    destruct (response_turn f (Fulfilled (pseudocode :: rest))
                (onChangeDisposable contentChanges (world s))
                (delete i (inflight s)) Hf) as (_ & -> & _).
    rewrite HF. apply lookup_insert_eq.
Qed.

Lemma answer_after_invalidation_is_stored_witness :
  cached "x = 1"
    (exec [ Host (DidChangeTextDocument [{| text := "9"; rangeLength := 1 |}]);
            Response 0 (Fulfilled ["SET x TO 1"]) ] hovering)
  = Some "SET x TO 1".
Proof.
  destruct (answer_after_invalidation_is_stored hovering 0 hoverFlight "x = 1"
              [{| text := "9"; rangeLength := 1 |}] "SET x TO 1" [])
    as [_ Hstored].
  - exists (Some sampleKey), None, [Host (HoverRequested ["x = 1"] 0)].
    reflexivity.
  - reflexivity.
  - reflexivity.
  - reflexivity.
  - exact Hstored.
Defined.

Lemma host_hover_on_miss s document line key lineText :
  misses document line (world s) key lineText →
  step s (Host (HoverRequested document line))
  = {| world := world s;
       inflight :=
         inflight s
         ++ [{| origin := HoverRequested document line;
                request := messagesRequest key lineText;
                resume := λ out w,
                  bind (hoverResume line lineText out w)
                       (λ _ w', Return () w') |}] |}.
Proof.
  intros (Hl & Hc & Hk & Hm).
  destruct (document !! line) as [lineOfDocument|] eqn:Hd; [|done].
  injection Hl as <-. simpl.
  by rewrite (provideHover_miss _ _ _ _ Hd _ Hc Hk Hm).
Qed.

Lemma response_to_hover others line lineText ev req out w :
  step {| world := w;
          inflight :=
            others
            ++ [{| origin := ev; request := req;
                   resume := λ out w,
                     bind (hoverResume line lineText out w)
                          (λ _ w', Return () w') |}] |}
       (Response (length others) out)
  = {| world := stored lineText out w; inflight := others |}.
Proof.
  simpl. rewrite list_lookup_middle by done. simpl.
  destruct (hoverResume_settles line lineText out w) as [h ->]. simpl.
  f_equal. rewrite (delete_middle others []). apply app_nil_r.
Qed.

(** X9.  Hovers are not merged.  Two hovers on a line that is not in
    the cache, the second before the answer to the first, each send the
    same request; both answers are stored when they arrive, and the
    cache keeps the one that arrived last. *)
Theorem concurrent_misses_are_not_merged
    s document line key lineText first rest1 second rest2 :
  misses document line (world s) key lineText →
  request <$> inflight (exec [ Host (HoverRequested document line);
                               Host (HoverRequested document line) ] s)
  = ((request <$> inflight s)
     ++ [messagesRequest key lineText; messagesRequest key lineText])%list
  ∧ cached lineText
      (exec [ Host (HoverRequested document line);
              Host (HoverRequested document line);
              Response (length (inflight s)) (Fulfilled (first :: rest1));
              Response (length (inflight s)) (Fulfilled (second :: rest2)) ] s)
    = Some second.
Proof.
  intros Hmiss.
  pose proof (host_hover_on_miss s _ _ _ _ Hmiss) as H1.
  assert (misses document line
            (world (step s (Host (HoverRequested document line))))
            key lineText) as Hmiss1 by by rewrite H1.
  pose proof (host_hover_on_miss _ _ _ _ _ Hmiss1) as H2.
  rewrite H1 in H2. cbn [inflight world] in H2.
  change (exec [Host (HoverRequested document line);
                Host (HoverRequested document line)] s)
    with (step (step s (Host (HoverRequested document line)))
               (Host (HoverRequested document line))).
  change (exec (Host (HoverRequested document line)
                :: Host (HoverRequested document line) :: ?ts) s)
    with (exec ts (step (step s (Host (HoverRequested document line)))
                        (Host (HoverRequested document line)))).
  rewrite H1, H2. cbn [inflight]. split.
  - rewrite !fmap_app. simpl. by rewrite <- app_assoc.
  - match goal with
    | |- context [{| world := ?w; inflight := (?l ++ [?f1]) ++ [?f2] |}] =>
        replace ((l ++ [f1]) ++ [f2])%list with (l ++ f1 :: [f2])%list
          by (by rewrite <- app_assoc)
    end.
    unfold exec. cbn [foldl]. unfold step at 2. cbn [inflight world].
    rewrite list_lookup_middle by done. cbn [resume origin].
    destruct (hoverResume_settles line lineText (Fulfilled (first :: rest1))
                (world s)) as [h ->].
    cbn [bind settle]. rewrite delete_middle.
    rewrite response_to_hover. apply stored_same.
Qed.

Lemma concurrent_misses_are_not_merged_witness :
  cached "x = 1"
    (exec [ Host (HoverRequested ["x = 1"] 0);
            Host (HoverRequested ["x = 1"] 0);
            Response 0 (Fulfilled ["SET x TO 1"]);
            Response 0 (Fulfilled ["x := 1"]) ]
       (boot (Some sampleKey) None))
  = Some "x := 1".
Proof.
  destruct (concurrent_misses_are_not_merged (boot (Some sampleKey) None)
              ["x = 1"] 0 sampleKey "x = 1" "SET x TO 1" [] "x := 1" [])
    as [_ Hlast]; [by repeat split|].
  exact Hlast.
Defined.

(** ** The hover provider: what it leaves alone *)

(** X10.  The hover provider changes nothing but the cache: it shows no
    message, leaves the panel, the active editor and the credential as
    they are, and this holds of what it does when the answer arrives
    too. *)
Theorem hover_touches_only_the_cache document line w serve :
  final (run serve (provideHover document line w))
  = with_cache (pseudocodeCache (final (run serve (provideHover document line w)))) w
  ∧ ∀ lineText out w',
      final (run serve (hoverResume line lineText out w'))
      = with_cache
          (pseudocodeCache (final (run serve (hoverResume line lineText out w'))))
          w'.
Proof.
  assert (∀ w0 : World, w0 = with_cache (pseudocodeCache w0) w0) as Hsame
    by by intros [].
  assert (∀ lineText out w0,
            stored lineText out w0
            = with_cache (pseudocodeCache (stored lineText out w0)) w0) as Hst.
  { intros lineText [[|pseudocode rest]|err] w0; simpl; auto. }
  split.
  - destruct (provideHover_miss_or_not document line w serve)
      as [[_ ->]|(key & lineText & Hmiss)]; [apply Hsame|].
    destruct (provideHover_on_miss _ _ _ _ _ serve Hmiss) as [_ ->].
    apply Hst.
  - intros lineText out w'.
    destruct (hoverResume_settles line lineText out w') as [h ->]. apply Hst.
Qed.

(** ** The save listener: which files count *)

Lemma rev_app_spec (s acc : string) :
  String.rev_app s acc = String.rev s +:+ acc.
Proof.
  unfold String.rev. revert acc.
  induction s as [|a s IH]; intros acc; [done|]. simpl.
  rewrite (IH (String a acc)), (IH (String a "")).
  by rewrite string_app_assoc.
Qed.

Lemma rev_cons a (s : string) :
  String.rev (String a s) = String.rev s +:+ String a "".
Proof. unfold String.rev at 1. simpl. apply rev_app_spec. Qed.

Lemma rev_app_distr (s t : string) :
  String.rev (s +:+ t) = String.rev t +:+ String.rev s.
Proof.
  induction s as [|a s IH]; [by rewrite string_app_nil_r|].
  rewrite string_app_cons, !rev_cons, IH. apply string_app_assoc.
Qed.

Lemma rev_involutive (s : string) : String.rev (String.rev s) = s.
Proof.
  induction s as [|a s IH]; [done|].
  by rewrite rev_cons, rev_app_distr, IH.
Qed.

Lemma prefix_iff (p s : string) :
  String.prefix p s = true ↔ ∃ t, s = p +:+ t.
Proof.
  revert s. induction p as [|a p IH]; intros [|b s]; simpl.
  - split; [by exists ""|done].
  - split; [by exists (String b s)|done].
  - split; [done|by intros [t [=]]].
  - destruct (ascii_dec a b) as [->|Hne].
    + rewrite IH. split; intros [t Ht]; exists t.
      * by rewrite Ht.
      * by injection Ht.
    + split; [done|]. intros [t [= ? _]]. congruence.
Qed.

Lemma endsWith_iff (t s : string) :
  Js.endsWith t s = true ↔ ∃ base, s = base +:+ t.
Proof.
  unfold Js.endsWith. rewrite prefix_iff. split.
  - intros [u Hu]. exists (String.rev u).
    rewrite <- (rev_involutive s), Hu, rev_app_distr.
    by rewrite rev_involutive.
  - intros [base ->]. exists (String.rev base). apply rev_app_distr.
Qed.

Lemma toLowerCase_app (s t : string) :
  Js.toLowerCase (s +:+ t) = Js.toLowerCase s +:+ Js.toLowerCase t.
Proof.
  induction s as [|a s IH]; [done|].
  rewrite string_app_cons. simpl. by rewrite IH.
Qed.

Lemma toLowerCase_split (f x y : string) :
  Js.toLowerCase f = x +:+ y →
  ∃ f1 f2, f = f1 +:+ f2 ∧ Js.toLowerCase f1 = x ∧ Js.toLowerCase f2 = y.
Proof.
  revert f. induction x as [|a x IH]; intros f Hf.
  - by exists "", f.
  - destruct f as [|b f]; [done|]. injection Hf as Hb Hf.
    destruct (IH f Hf) as (f1 & f2 & -> & <- & <-).
    exists (String b f1), f2. simpl. by rewrite Hb.
Qed.

Lemma lower_dot a : Js.lower a = "."%char → a = "."%char.
Proof. destruct a as [[] [] [] [] [] [] [] []]; by vm_compute. Qed.

Lemma lower_p a : Js.lower a = "p"%char → a = "p"%char ∨ a = "P"%char.
Proof.
  destruct a as [[] [] [] [] [] [] [] []]; vm_compute; intros H;
    try discriminate H; auto.
Qed.

Lemma lower_y a : Js.lower a = "y"%char → a = "y"%char ∨ a = "Y"%char.
Proof.
  destruct a as [[] [] [] [] [] [] [] []]; vm_compute; intros H;
    try discriminate H; auto.
Qed.

(** X11.  The save listener takes a file for a Python file exactly when
    its name ends with [.py], the two letters in either case. *)
Theorem python_files_end_with_py fileName :
  isPythonFile fileName = true
  ↔ ∃ base ext, fileName = base +:+ ext
                ∧ (ext = ".py" ∨ ext = ".pY" ∨ ext = ".Py" ∨ ext = ".PY").
Proof.
  unfold isPythonFile. rewrite endsWith_iff. split.
  - intros [base Hbase].
    destruct (toLowerCase_split _ _ _ Hbase) as (f1 & ext & -> & _ & Hext).
    exists f1, ext. split; [done|].
    destruct ext as [|a [|b [|c [|d ext]]]]; try done.
    injection Hext as Ha Hb Hc.
    apply lower_dot in Ha as ->.
    apply lower_p in Hb as [-> | ->]; apply lower_y in Hc as [-> | ->]; auto.
  - intros (base & ext & -> & Hext). exists (Js.toLowerCase base).
    rewrite toLowerCase_app. by destruct Hext as [->|[->|[->| ->]]].
Qed.

(** ** The keys of the cache *)

Lemma strip_fixed r s : headWs r s = false → Js.strip r s = s.
Proof.
  destruct s as [|a [|b [|c s3]]]; simpl; try done.
  - by intros ->%orb_false_elim%proj1.
  - intros [-> [-> _]%orb_false_elim]%orb_false_elim. done.
  - intros [-> [-> ->]%orb_false_elim]%orb_false_elim. done.
Qed.

Lemma strip_bounded r n s :
  (String.length s ≤ n)%nat →
  headWs r (Js.strip r s) = false ∧ ∃ p, s = p +:+ Js.strip r s.
Proof.
  revert s. induction n as [|n IH]; intros s Hlen.
  { destruct s; [|simpl in Hlen; lia]. split; [done|by exists ""]. }
  destruct s as [|a s1]; [split; [done|by exists ""]|].
  simpl in Hlen. simpl Js.strip.
  destruct (Js.is_ws1 a) eqn:H1.
  { destruct (IH s1) as [Hh [p Hp]]; [lia|]. split; [done|].
    exists (String a p). by rewrite string_app_cons, <- Hp. }
  destruct s1 as [|b s2].
  { split; [simpl; by rewrite H1|by exists ""]. }
  simpl in Hlen.
  destruct (if r then Js.is_ws2 b a else Js.is_ws2 a b) eqn:H2.
  { destruct (IH s2) as [Hh [p Hp]]; [lia|]. split; [done|].
    exists (String a (String b p)). by rewrite !string_app_cons, <- Hp. }
  destruct s2 as [|c s3].
  { split; [simpl; by rewrite H1, H2|by exists ""]. }
  simpl in Hlen.
  destruct (if r then Js.is_ws3 c b a else Js.is_ws3 a b c) eqn:H3.
  { destruct (IH s3) as [Hh [p Hp]]; [lia|]. split; [done|].
    exists (String a (String b (String c p))).
    by rewrite !string_app_cons, <- Hp. }
  split; [simpl; by rewrite H1, H2, H3|by exists ""].
Qed.

Lemma headWs_prefix r (y z : string) :
  headWs r (y +:+ z) = false → headWs r y = false.
Proof.
  destruct y as [|a [|b [|c y3]]]; try done.
  - rewrite !string_app_cons. simpl.
    by intros [-> _]%orb_false_elim.
  - rewrite !string_app_cons. simpl.
    intros [-> [-> _]%orb_false_elim]%orb_false_elim. done.
Qed.

Lemma trim_is_trimmed s : trimmed (Js.trim s).
Proof.
  unfold trimmed, Js.trim, Js.trimEnd, Js.trimStart.
  destruct (strip_bounded false _ s (le_n _)) as [Hhead _].
  destruct (strip_bounded true _ (String.rev (Js.strip false s)) (le_n _))
    as [Htail [p Hp]].
  split.
  - apply (headWs_prefix _ _ (String.rev p)).
    rewrite <- rev_app_distr, <- Hp. by rewrite rev_involutive.
  - by rewrite rev_involutive.
Qed.

Lemma trim_of_trimmed s : trimmed s → Js.trim s = s.
Proof.
  intros [Hhead Htail]. unfold Js.trim, Js.trimEnd, Js.trimStart.
  rewrite (strip_fixed false s Hhead), (strip_fixed true _ Htail).
  apply rev_involutive.
Qed.

Lemma FlightOf_key_is_trimmed f F :
  FlightOf f → hoverKey (origin f) = Some F → trimmed F.
Proof.
  intros [document line lineOfDocument req Hl Hc|ev isAutoUpdate req Hev]; simpl.
  - rewrite Hl. intros [= <-]. apply trim_is_trimmed.
  - by rewrite Hev.
Qed.

Lemma exec_keys_are_trimmed ts s :
  Forall FlightOf (inflight s) →
  (∀ F E, cached F s = Some E → trimmed F) →
  ∀ F E, cached F (exec ts s) = Some E → trimmed F.
Proof.
  revert s. induction ts as [|t ts IH]; intros s Hs Hkeys; [done|].
  simpl. apply IH; [by apply step_flights|].
  intros F E. unfold cached.
  destruct t as [ev|i out|];
    [| |destruct (timer_turn s) as (-> & _); apply Hkeys]; simpl.
  - destruct (host_turn ev (world s) (inflight s)) as (-> & _ & _).
    destruct (invalidates (Host ev)); [done|]. apply Hkeys.
  - destruct (inflight s !! i) as [f|] eqn:Hi; [|apply Hkeys].
    assert (FlightOf f) as Hf.
    { eapply Forall_lookup_1; [exact Hs | exact Hi]. }
    destruct (response_turn f out (world s) (delete i (inflight s)) Hf)
      as (_ & -> & _).
    destruct (hoverKey (origin f)) as [F'|] eqn:HF'; [|apply Hkeys].
    destruct out as [[|pseudocode rest]|err]; try apply Hkeys.
    destruct (decide (F' = F)) as [->|Hne].
    + intros _. by apply (FlightOf_key_is_trimmed f).
    + rewrite lookup_insert_ne by done. apply Hkeys.
Qed.

(** X12.  From the start of the extension on, every key of the cache is
    the text of a line that a hover went on with: it is not empty, does
    not start with [#], has no white space at either end (so that it is
    its own key), and a credential is there. *)
Theorem cache_keys_are_hovered_lines s F E :
  reachable s →
  cached F s = Some E →
  hasContent F = true
  ∧ trimmed F
  ∧ Js.trim F = F
  ∧ ∃ key, apiKey (world s) = Some key.
Proof.
  intros Hs HF.
  assert (trimmed F) as Htrimmed.
  { destruct Hs as (key & editor & ts & ->).
    apply (exec_keys_are_trimmed ts (boot key editor)) with E; [done| |done].
    intros F' E'. unfold cached. simpl. by rewrite lookup_empty. }
  split; [by apply (reachable_keys_have_content s F E)|].
  split; [done|]. split; [by apply trim_of_trimmed|].
  by apply (reachable_entry_has_key s F E).
Qed.

Lemma cache_keys_are_hovered_lines_witness :
  Js.trim "x = 1" = "x = 1"
  ∧ ∃ key,
      apiKey (world (step hovering (Response 0 (Fulfilled ["SET x TO 1"]))))
      = Some key.
Proof.
  destruct (cache_keys_are_hovered_lines
              (step hovering (Response 0 (Fulfilled ["SET x TO 1"])))
              "x = 1" "SET x TO 1") as (_ & _ & Htrim & Hkey).
  - exists (Some sampleKey), None,
      [Host (HoverRequested ["x = 1"] 0); Response 0 (Fulfilled ["SET x TO 1"])].
    reflexivity.
  - reflexivity.
  - split; [exact Htrim | exact Hkey].
Defined.

(** X13.  What a hover sends to the service is the line without the
    white space at its ends: the fragment of the request is trimmed,
    and trimming it again changes nothing. *)
Theorem hover_sends_trimmed_line document line w key lineText serve :
  misses document line w key lineText →
  requests (run serve (provideHover document line w))
  = [messagesRequest key lineText]
  ∧ trimmed lineText
  ∧ Js.trim lineText = lineText.
Proof.
  intros Hmiss.
  destruct (provideHover_on_miss _ _ _ _ _ serve Hmiss) as [-> _].
  destruct Hmiss as (Hl & _).
  destruct (document !! line) as [lineOfDocument|]; [|done].
  injection Hl as <-.
  split; [done|]. split; [apply trim_is_trimmed|].
  apply trim_of_trimmed, trim_is_trimmed.
Qed.

Lemma hover_sends_trimmed_line_witness :
  requests
    (run unreachableService
       (provideHover ["def f():"; "    return 1  "] 1
          (sampleWorld (Some sampleKey) ∅ None)))
  = [messagesRequest sampleKey "return 1"].
Proof.
  destruct (hover_sends_trimmed_line ["def f():"; "    return 1  "] 1
              (sampleWorld (Some sampleKey) ∅ None) sampleKey "return 1"
              unreachableService) as (Hreq & _); [by repeat split|].
  exact Hreq.
Defined.

(** ** The command-line script *)

Lemma onLine_closed codeLines input :
  foldl Cli.onLine {| Cli.closed := true; Cli.codeLines := codeLines |} input
  = {| Cli.closed := true; Cli.codeLines := codeLines |}.
Proof. induction input as [|line input IH]; [done|]. simpl. apply IH. Qed.

Lemma onLine_open codeLines input :
  Cli.codeLines
    (foldl Cli.onLine {| Cli.closed := false; Cli.codeLines := codeLines |} input)
  = (codeLines ++ beforeBlank input)%list.
Proof.
  revert codeLines. induction input as [|line input IH]; intros codeLines.
  - simpl. by rewrite app_nil_r.
  - simpl. unfold Cli.onLine at 2. simpl.
    destruct (Js.not_ (Js.trim line)).
    + rewrite onLine_closed. simpl. by rewrite app_nil_r.
    + rewrite IH. by rewrite <- app_assoc.
Qed.

Lemma main_onClose convert input w :
  Cli.main convert input w
  = Cli.onClose convert ["請輸入你要轉換的程式碼（結束請輸入空行）："]
      (beforeBlank input) w.
Proof. unfold Cli.main. by rewrite onLine_open. Qed.

Lemma beforeBlank_after_blank pre blank post :
  Js.trim blank = "" →
  beforeBlank (pre ++ blank :: post) = beforeBlank pre.
Proof.
  intros Hblank. induction pre as [|line pre IH]; simpl.
  - by rewrite Hblank.
  - destruct (Js.not_ (Js.trim line)); [done|]. by rewrite IH.
Qed.

Lemma join_not_empty line codeLines :
  Js.trim line ≠ "" → Js.not_ (Cli.join (line :: codeLines)) = false.
Proof.
  intros Hline. destruct line as [|a line]; [done|].
  unfold Cli.join. simpl. by destruct codeLines.
Qed.

Lemma beforeBlank_head line codeLines input :
  beforeBlank input = line :: codeLines → Js.trim line ≠ "".
Proof.
  destruct input as [|first input]; [done|]. simpl.
  destruct (Js.not_ (Js.trim first)) eqn:Hfirst; [done|].
  intros [= <- _]. by apply not_false.
Qed.

(** X14.  The script converts the lines typed before the first blank
    line, joined by line feeds, and what comes after that blank line
    changes nothing.  With a credential it sends one request for that
    code.  When the request is fulfilled the console ends with the first
    block of the answer.  When it is rejected, the console shows the
    body of the error response, if a response was received, and then
    the error that [codeToPseudocode] threw. *)
Theorem script_converts_lines_before_blank input w key serve :
  apiKey w = Some key →
  beforeBlank input ≠ [] →
  requests (run serve (Cli.main ClaudeApiJs.codeToPseudocode input w))
  = [ClaudeApiJs.messagesRequest key (Cli.join (beforeBlank input))]
  ∧ (∀ pseudocode rest,
       serve (ClaudeApiJs.messagesRequest key (Cli.join (beforeBlank input)))
       = Fulfilled (pseudocode :: rest) →
       completion (run serve (Cli.main ClaudeApiJs.codeToPseudocode input w))
       = Returned
           [ "請輸入你要轉換的程式碼（結束請輸入空行）：";
             Js.nl +:+ "正在呼叫 Claude API，請稍候...";
             Js.nl +:+ "--- Claude 產生的 pseudocode ---" +:+ Js.nl;
             pseudocode ])
  ∧ (∀ err,
       serve (ClaudeApiJs.messagesRequest key (Cli.join (beforeBlank input)))
       = Rejected err →
       completion (run serve (Cli.main ClaudeApiJs.codeToPseudocode input w))
       = Returned
           ([ "請輸入你要轉換的程式碼（結束請輸入空行）：";
              Js.nl +:+ "正在呼叫 Claude API，請稍候..." ]
            ++ match err_response err with
               | Some r => ["API 錯誤詳情: " +:+ ClaudeApiJs.shownBody (data r)]
               | None => []
               end
            ++ [ "發生錯誤： " +:+ message (rethrow err) ])%list)
  ∧ (∀ blank post,
       Js.trim blank = "" →
       Cli.main ClaudeApiJs.codeToPseudocode (input ++ blank :: post) w
       = Cli.main ClaudeApiJs.codeToPseudocode input w).
Proof.
  intros Hk Hcode.
  assert (∀ blank post,
            Js.trim blank = "" →
            Cli.main ClaudeApiJs.codeToPseudocode (input ++ blank :: post) w
            = Cli.main ClaudeApiJs.codeToPseudocode input w) as Hafter.
  { intros blank post Hblank.
    by rewrite !main_onClose, (beforeBlank_after_blank _ _ _ Hblank). }
  split; [|split; [|split; [|exact Hafter]]];
    rewrite main_onClose;
    (destruct (beforeBlank input) as [|line codeLines] eqn:Hlines; [done|]);
    pose proof (beforeBlank_head _ _ _ Hlines) as Hline;
    unfold Cli.onClose; rewrite (join_not_empty _ _ Hline);
    unfold ClaudeApiJs.codeToPseudocode; rewrite Hk; simpl.
  - by destruct (serve _) as [[|pseudocode rest]|err].
  - by intros pseudocode rest ->.
  - intros err ->. simpl. by destruct (err_response err).
Qed.

Lemma script_converts_lines_before_blank_witness :
  requests
    (run (echoService "SET x TO 1")
       (Cli.main ClaudeApiJs.codeToPseudocode
          ["x = 1"; "y = 2"; ""; "z = 3"]
          (sampleWorld (Some sampleKey) ∅ None)))
  = [ClaudeApiJs.messagesRequest sampleKey ("x = 1" +:+ Js.nl +:+ "y = 2")].
Proof.
  destruct (script_converts_lines_before_blank ["x = 1"; "y = 2"; ""; "z = 3"]
              (sampleWorld (Some sampleKey) ∅ None) sampleKey
              (echoService "SET x TO 1")) as [Hreq _];
    [reflexivity | by vm_compute | exact Hreq].
Defined.

(** X15.  When the first line is blank, or the input is empty, the
    script prints that no code was given and stops: the conversion is
    not called, so nothing is sent and a missing credential is not even
    noticed.  With code and no credential, it announces the call, sends
    nothing and prints the missing-key error. *)
Theorem script_without_code_or_key input w serve :
  (beforeBlank input = [] →
   ∀ convert,
     run serve (Cli.main convert input w)
     = (Returned [ "請輸入你要轉換的程式碼（結束請輸入空行）：";
                   "未輸入任何程式碼，程式結束。" ], w, []))
  ∧ (beforeBlank input ≠ [] → apiKey w = None →
     run serve (Cli.main ClaudeApiJs.codeToPseudocode input w)
     = (Returned [ "請輸入你要轉換的程式碼（結束請輸入空行）：";
                   Js.nl +:+ "正在呼叫 Claude API，請稍候...";
                   "發生錯誤： 找不到 CLAUDE_API_KEY，請檢查 .env 檔案" ], w, [])).
Proof.
  split.
  - intros Hnone convert. by rewrite main_onClose, Hnone.
  - intros Hcode Hk. rewrite main_onClose.
    destruct (beforeBlank input) as [|line codeLines] eqn:Hlines; [done|].
    pose proof (beforeBlank_head _ _ _ Hlines) as Hline.
    unfold Cli.onClose. rewrite (join_not_empty _ _ Hline).
    unfold ClaudeApiJs.codeToPseudocode. by rewrite Hk.
Qed.

Lemma script_without_code_or_key_witness :
  run unreachableService
    (Cli.main ClaudeApiJs.codeToPseudocode ["   "; "x = 1"]
       (sampleWorld None ∅ None))
  = (Returned [ "請輸入你要轉換的程式碼（結束請輸入空行）：";
                "未輸入任何程式碼，程式結束。" ],
     sampleWorld None ∅ None, []).
Proof.
  destruct (script_without_code_or_key ["   "; "x = 1"]
              (sampleWorld None ∅ None) unreachableService) as [Hnone _].
  apply Hnone. reflexivity.
Defined.

(** ** The earlier command and the later one *)



(** What the console shows after an error response, with a body and
    with the body [null]. *)
Lemma script_shows_the_error_response :
  completion
    (run (failingService 401 (Some "invalid x-api-key"))
       (Cli.main ClaudeApiJs.codeToPseudocode ["x = 1"]
          (sampleWorld (Some sampleKey) ∅ None)))
  = Returned
      [ "請輸入你要轉換的程式碼（結束請輸入空行）：";
        Js.nl +:+ "正在呼叫 Claude API，請稍候...";
        "API 錯誤詳情: { error: { message: 'invalid x-api-key' } }";
        "發生錯誤： Claude API 請求失敗 (401): invalid x-api-key" ]
  ∧ completion
      (run nullBodyService
         (Cli.main ClaudeApiJs.codeToPseudocode ["x = 1"]
            (sampleWorld (Some sampleKey) ∅ None)))
    = Returned
        [ "請輸入你要轉換的程式碼（結束請輸入空行）：";
          Js.nl +:+ "正在呼叫 Claude API，請稍候...";
          "API 錯誤詳情: null";
          "發生錯誤： Cannot read properties of null (reading 'error')" ].
Proof. by split. Qed.
